(** * Mutating admission webhook: volume-mount path rewriting

    A shallow embedding of [app/main.py] and the verification of its
    specification.  The Python functions are embedded under their own
    names:

    - [has_target_label]           (main.py, lines 47-54)
    - [replace_home_path]          (main.py, lines 57-77)
    - [patches_for_volume_mounts]  (main.py, lines 80-112)
    - [build_patches]              (main.py, lines 115-137)
    - [mutate]                     (main.py, lines 140-198)

    Modelling conventions.

    - A Python [str] is a [string]; one [ascii] stands for one character
      (code points U+0000 to U+00FF).  The path functions only compare
      characters with the separator, so nothing there depends on the
      alphabet.  Upper-casing can leave this alphabet, so [upper] gives
      code points.
    - A decoded JSON document is a [json] value; a Python [dict] is an
      association list in insertion order, looked up by its first binding.
      Python's [None] is [JNull].
    - An exception is the [Raise] branch of [result]; [try]/[except] is a
      match on it.
    - The module-level configuration read from the environment is a
      [Config] record passed to every function that reads it. *)

From Stdlib Require Import String Ascii List ZArith NArith Bool Lia.
From Stdlib Require Import Strings.Byte.
From Stdlib Require Import DecimalString.
From Stdlib Require DecimalNat.
Import ListNotations.

Local Open Scope list_scope.
Local Open Scope string_scope.

(* ================================================================== *)
(** ** Python strings *)

Module PyStr.

Definition slash : ascii := "/"%char.

(** [s.rstrip("/")]: drop every trailing separator. *)
Fixpoint rstrip_slash (s : string) : string :=
  match s with
  | EmptyString => EmptyString
  | String c r =>
      match rstrip_slash r with
      | EmptyString => if Ascii.eqb c slash then EmptyString else String c EmptyString
      | r' => String c r'
      end
  end.

(** [s.startswith(p)]. *)
Definition startswith (s p : string) : bool := String.prefix p s.

(** Remove the first [n] characters. *)
Fixpoint drop (n : nat) (s : string) : string :=
  match n, s with
  | O, _ => s
  | S _, EmptyString => EmptyString
  | S k, String _ r => drop k r
  end.

(** [s[i:]] for a Python integer [i]: a negative index counts from the
    end, and every index is clamped to the string. *)
Definition slice_from (i : Z) (s : string) : string :=
  if (i <? 0)%Z
  then drop (Z.to_nat (Z.max 0 (Z.of_nat (String.length s) + i))) s
  else drop (Z.to_nat i) s.

(** [len(s)] as a Python integer. *)
Definition len (s : string) : Z := Z.of_nat (String.length s).

(** [s.endswith("/")]. *)
Fixpoint ends_with_slash (s : string) : bool :=
  match s with
  | EmptyString => false
  | String c EmptyString => Ascii.eqb c slash
  | String _ r => ends_with_slash r
  end.

(** The all-separator string of length [k]. *)
Fixpoint slashes (k : nat) : string :=
  match k with
  | O => EmptyString
  | S k' => String slash (slashes k')
  end.

(** The code points of a string. *)
Fixpoint code_points (s : string) : list N :=
  match s with
  | EmptyString => []
  | String c r => N_of_ascii c :: code_points r
  end.

(** [c.upper()] for one character, as code points: a letter [a]-[z], or
    a Latin-1 letter U+00E0-U+00FE other than the division sign U+00F7,
    moves down by 32; U+00DF becomes [SS]; U+00B5 and U+00FF become U+039C
    and U+0178, which lie outside the characters a [string] holds, whence
    the result type; every other character is kept. *)
Definition upper_char (c : ascii) : list N :=
  let n := N_of_ascii c in
  if ((97 <=? n) && (n <=? 122))%N then [n - 32]%N
  else if (n =? 181)%N then [924]%N
  else if (n =? 223)%N then [83; 83]%N
  else if (n =? 247)%N then [n]
  else if (n =? 255)%N then [376]%N
  else if (224 <=? n)%N then [n - 32]%N
  else [n].

(** [s.upper()], as code points. *)
Fixpoint upper (s : string) : list N :=
  match s with
  | EmptyString => []
  | String c r => (upper_char c ++ upper r)%list
  end.

(** [str(n)] for a non-negative index, as an f-string prints it. *)
Definition of_nat (n : nat) : string := NilZero.string_of_uint (Nat.to_uint n).

End PyStr.

(* ================================================================== *)
(** ** Configuration (main.py, lines 40-44) *)

Record Config := mkConfig {
  LABEL_KEY : string;
  LABEL_VALUE : string;
  REWRITE_FROM : string;
  REWRITE_TO : string
}.

(** The defaults of the four [os.environ.get] calls. *)
Definition default_config : Config :=
  {| LABEL_KEY := "nfs-home";
     LABEL_VALUE := "true";
     REWRITE_FROM := "/home";
     REWRITE_TO := "/blah/home" |}.

(* ================================================================== *)
(** ** PathRewriter (main.py, lines 57-77) *)

Definition replace_home_path (cfg : Config) (original_path : string) : string :=
  let from_exact := REWRITE_FROM cfg in
  let from_prefix := PyStr.rstrip_slash (REWRITE_FROM cfg) ++ "/" in
  let to_base := PyStr.rstrip_slash (REWRITE_TO cfg) in
  if String.eqb original_path from_exact then to_base ++ "/"
  else if PyStr.startswith original_path from_prefix then
    let suffix :=
      PyStr.slice_from (PyStr.len from_exact)
        (PyStr.slice_from (PyStr.len from_prefix - 1)%Z original_path) in
    to_base ++ suffix
  else original_path.

(* ================================================================== *)
(** ** Decoded JSON documents and the Python operations on them *)

(** What [json.loads] produces.  [JInt] is a Python [int]; [JFloat m e] is
    the finite [float] [m * 2^e], zero exactly when [m] is.  The handler
    uses a number only for its truth value. *)
#[local] Unset Elimination Schemes.
Inductive json : Type :=
| JNull
| JBool (b : bool)
| JInt (n : Z)
| JFloat (m e : Z)
| JStr (s : string)
| JArr (items : list json)
| JObj (fields : list (string * json)).
#[local] Set Elimination Schemes.

(** The exceptions the handler can meet. *)
Inductive exn : Type :=
| AttributeError
| TypeError
| ValueError
| BadRequest
| UnicodeDecodeError.

Inductive result (A : Type) : Type :=
| Ok (a : A)
| Raise (e : exn).

Arguments Ok {A} a.
Arguments Raise {A} e.

Definition bind {A B : Type} (r : result A) (k : A -> result B) : result B :=
  match r with
  | Ok a => k a
  | Raise e => Raise e
  end.

Notation "x <- r ;; k" := (bind r (fun x => k))
  (at level 61, r at next level, right associativity).

Module Py.

(** First binding of [k] in a dict. *)
Fixpoint lookup (k : string) (fields : list (string * json)) : option json :=
  match fields with
  | [] => None
  | (k', v) :: rest => if String.eqb k k' then Some v else lookup k rest
  end.

(** [bool(v)]. *)
Definition truthy (v : json) : bool :=
  match v with
  | JNull => false
  | JBool b => b
  | JInt n => negb (n =? 0)%Z
  | JFloat m _ => negb (m =? 0)%Z
  | JStr s => negb (String.eqb s EmptyString)
  | JArr items => match items with [] => false | _ :: _ => true end
  | JObj fields => match fields with [] => false | _ :: _ => true end
  end.

(** [a or b]. *)
Definition or_ (a b : json) : json := if truthy a then a else b.

(** [v.get(k)]: [None] for a missing key; only a dict has the method. *)
Definition get (v : json) (k : string) : result json :=
  match v with
  | JObj fields =>
      match lookup k fields with
      | Some x => Ok x
      | None => Ok JNull
      end
  | _ => Raise AttributeError
  end.

(** [v == s] for a string [s]. *)
Definition eq_str (v : json) (s : string) : bool :=
  match v with
  | JStr t => String.eqb t s
  | _ => false
  end.

Fixpoint chars (s : string) : list json :=
  match s with
  | EmptyString => []
  | String c r => JStr (String c EmptyString) :: chars r
  end.

(** The items [for ... in enumerate(v)] visits: the elements of a list,
    the keys of a dict, the characters of a string; nothing else is
    iterable. *)
Definition iter (v : json) : result (list json) :=
  match v with
  | JArr items => Ok items
  | JObj fields => Ok (map (fun kv => JStr (fst kv)) fields)
  | JStr s => Ok (chars s)
  | _ => Raise TypeError
  end.

(** [v.upper()]: only a string has the method. *)
Definition upper (v : json) : result (list N) :=
  match v with
  | JStr s => Ok (PyStr.upper s)
  | _ => Raise AttributeError
  end.

Definition isinstance_dict (v : json) : bool :=
  match v with
  | JObj _ => true
  | _ => false
  end.

Definition empty_dict : json := JObj [].
Definition empty_list : json := JArr [].

End Py.

(* ================================================================== *)
(** ** LabelMatcher (main.py, lines 47-54) *)

Definition has_target_label (cfg : Config) (obj : json) : result bool :=
  metadata <- Py.get obj "metadata" ;;
  labels0 <- Py.get (Py.or_ metadata Py.empty_dict) "labels" ;;
  let labels := Py.or_ labels0 Py.empty_dict in
  v <- Py.get labels (LABEL_KEY cfg) ;;
  Ok (Py.eq_str v (LABEL_VALUE cfg)).

(* ================================================================== *)
(** ** ContainerPatchBuilder (main.py, lines 80-112) *)

(** One RFC 6902 operation, the dict [{"op": .., "path": .., "value": ..}]. *)
Record PatchOp := mkPatchOp {
  op : string;
  path : string;
  value : string
}.

(** The f-string of line 108. *)
Definition mount_pointer (base_path : string) (container_index mount_index : nat) : string :=
  base_path ++ "/" ++ PyStr.of_nat container_index ++ "/volumeMounts/"
            ++ PyStr.of_nat mount_index ++ "/mountPath".

(** The body of the inner loop (lines 99-111) for one mount; [patches] is
    the list being appended to. *)
Definition visit_mount (cfg : Config) (base_path : string)
    (container_index mount_index : nat) (mount : json)
    (patches : list PatchOp) : result (list PatchOp) :=
  let from_exact := REWRITE_FROM cfg in
  let from_prefix := PyStr.rstrip_slash (REWRITE_FROM cfg) ++ "/" in
  mount_path <- Py.get mount "mountPath" ;;
  match mount_path with
  | JStr p =>
      if String.eqb p from_exact || PyStr.startswith p from_prefix then
        let new_path := replace_home_path cfg p in
        if negb (String.eqb new_path p) then
          Ok (patches ++ [ {| op := "replace";
                              path := mount_pointer base_path container_index mount_index;
                              value := new_path |} ])%list
        else Ok patches
      else Ok patches
  | _ => Ok patches
  end.

(** The inner loop, [for mount_index, mount in enumerate(volume_mounts)],
    from index [mount_index] on. *)
Fixpoint mounts_loop (cfg : Config) (base_path : string) (container_index mount_index : nat)
    (volume_mounts : list json) (patches : list PatchOp) : result (list PatchOp) :=
  match volume_mounts with
  | [] => Ok patches
  | mount :: rest =>
      patches' <- visit_mount cfg base_path container_index mount_index mount patches ;;
      mounts_loop cfg base_path container_index (S mount_index) rest patches'
  end.

(** The outer loop, [for container_index, container in enumerate(...)],
    from index [container_index] on. *)
Fixpoint containers_loop (cfg : Config) (base_path : string) (container_index : nat)
    (containers : list json) (patches : list PatchOp) : result (list PatchOp) :=
  match containers with
  | [] => Ok patches
  | container :: rest =>
      vm <- Py.get container "volumeMounts" ;;
      volume_mounts <- Py.iter (Py.or_ vm Py.empty_list) ;;
      patches' <- mounts_loop cfg base_path container_index 0 volume_mounts patches ;;
      containers_loop cfg base_path (S container_index) rest patches'
  end.

Definition patches_for_volume_mounts (cfg : Config) (base_path : string)
    (containers : json) : result (list PatchOp) :=
  items <- Py.iter (Py.or_ containers Py.empty_list) ;;
  containers_loop cfg base_path 0 items [].

(* ================================================================== *)
(** ** ResourcePatchPlanner (main.py, lines 115-137) *)

Definition build_patches (cfg : Config) (kind obj : json) : result (list PatchOp) :=
  let patches := [] in
  if Py.eq_str kind "Pod" then
    spec0 <- Py.get obj "spec" ;;
    let spec := Py.or_ spec0 Py.empty_dict in
    c0 <- Py.get spec "containers" ;;
    let containers := Py.or_ c0 Py.empty_list in
    i0 <- Py.get spec "initContainers" ;;
    let init_containers := Py.or_ i0 Py.empty_list in
    p1 <- patches_for_volume_mounts cfg "/spec/containers" containers ;;
    let patches := (patches ++ p1)%list in
    p2 <- patches_for_volume_mounts cfg "/spec/initContainers" init_containers ;;
    Ok (patches ++ p2)%list
  else if Py.eq_str kind "Deployment" then
    spec0 <- Py.get obj "spec" ;;
    template0 <- Py.get (Py.or_ spec0 Py.empty_dict) "template" ;;
    ts0 <- Py.get (Py.or_ template0 Py.empty_dict) "spec" ;;
    let template_spec := Py.or_ ts0 Py.empty_dict in
    c0 <- Py.get template_spec "containers" ;;
    let containers := Py.or_ c0 Py.empty_list in
    i0 <- Py.get template_spec "initContainers" ;;
    let init_containers := Py.or_ i0 Py.empty_list in
    p1 <- patches_for_volume_mounts cfg "/spec/template/spec/containers" containers ;;
    let patches := (patches ++ p1)%list in
    p2 <- patches_for_volume_mounts cfg "/spec/template/spec/initContainers" init_containers ;;
    Ok (patches ++ p2)%list
  else Ok patches.

(* ================================================================== *)
(** ** Serialisation: [json.dumps], [str.encode], [base64.b64encode] *)

Module Codec.

Definition dquote : ascii := ascii_of_nat 34.
Definition backslash : ascii := ascii_of_nat 92.

Definition hex_digit (n : nat) : ascii :=
  match n with
  | 0 => "0" | 1 => "1" | 2 => "2" | 3 => "3" | 4 => "4"
  | 5 => "5" | 6 => "6" | 7 => "7" | 8 => "8" | 9 => "9"
  | 10 => "a" | 11 => "b" | 12 => "c" | 13 => "d" | 14 => "e"
  | _ => "f"
  end%char.

(** How [json.dumps] (with its default [ensure_ascii=True]) writes one
    character of a string: the two-character escapes, [\u00xx] for the
    other characters outside the printable ASCII range, the character
    itself otherwise. *)
Definition escape_char (c : ascii) : string :=
  let n := nat_of_ascii c in
  if Ascii.eqb c dquote then String backslash (String dquote EmptyString)
  else if Ascii.eqb c backslash then String backslash (String backslash EmptyString)
  else if (n =? 8)%nat then String backslash "b"
  else if (n =? 9)%nat then String backslash "t"
  else if (n =? 10)%nat then String backslash "n"
  else if (n =? 12)%nat then String backslash "f"
  else if (n =? 13)%nat then String backslash "r"
  else if (n <? 32)%nat || (126 <? n)%nat then
    String backslash ("u00" ++ String (hex_digit (n / 16)) (String (hex_digit (n mod 16)) EmptyString))
  else String c EmptyString.

Fixpoint escape (s : string) : string :=
  match s with
  | EmptyString => EmptyString
  | String c r => escape_char c ++ escape r
  end.

Definition dumps_str (s : string) : string :=
  String dquote (escape s ++ String dquote EmptyString).

(** One operation, keys in insertion order, separators [", "] and [": "]. *)
Definition dumps_op (o : PatchOp) : string :=
  "{" ++ dumps_str "op" ++ ": " ++ dumps_str (op o) ++ ", "
      ++ dumps_str "path" ++ ": " ++ dumps_str (path o) ++ ", "
      ++ dumps_str "value" ++ ": " ++ dumps_str (value o) ++ "}".

Fixpoint join_ops (ops : list PatchOp) : string :=
  match ops with
  | [] => EmptyString
  | [o] => dumps_op o
  | o :: rest => dumps_op o ++ ", " ++ join_ops rest
  end.

(** [json.dumps(ops)]. *)
Definition json_dumps (ops : list PatchOp) : string :=
  "[" ++ join_ops ops ++ "]".

Definition byte_of_N (n : N) : byte := byte_of_ascii (ascii_of_N n).

(** [s.encode("utf-8")] on code points below U+0100: one byte below
    U+0080, two bytes from there. *)
Fixpoint encode_utf8 (s : string) : list byte :=
  match s with
  | EmptyString => []
  | String c r =>
      let n := N_of_ascii c in
      if (n <? 128)%N then byte_of_ascii c :: encode_utf8 r
      else byte_of_N (N.lor 192 (N.shiftr n 6))
           :: byte_of_N (N.lor 128 (N.land n 63))
           :: encode_utf8 r
  end.

(** [bs.decode("utf-8")] for the same range of code points; any other
    byte sequence is reported as [UnicodeDecodeError]. *)
Fixpoint decode_utf8 (bs : list byte) : result string :=
  match bs with
  | [] => Ok EmptyString
  | b :: rest =>
      let n := Byte.to_N b in
      if (n <? 128)%N then
        r <- decode_utf8 rest ;; Ok (String (ascii_of_byte b) r)
      else
        match rest with
        | b2 :: rest2 =>
            let n2 := Byte.to_N b2 in
            if ((n =? 194)%N || (n =? 195)%N) && (128 <=? n2)%N && (n2 <? 192)%N then
              r <- decode_utf8 rest2 ;;
              Ok (String (ascii_of_N (N.lor (N.shiftl (N.land n 31) 6) (N.land n2 63))) r)
            else Raise UnicodeDecodeError
        | [] => Raise UnicodeDecodeError
        end
  end.

Definition b64_alphabet : string :=
  "ABCDEFGHIJKLMNOPQRSTUVWXYZabcdefghijklmnopqrstuvwxyz0123456789+/".

(** The character of one 6-bit group. *)
Definition b64_char (n : N) : byte :=
  match String.get (N.to_nat n) b64_alphabet with
  | Some c => byte_of_ascii c
  | None => byte_of_ascii "A"
  end.

Definition b64_pad : byte := byte_of_ascii "=".

(** A byte below 0x80. *)
Definition is_ascii_byte (b : byte) : bool := (Byte.to_N b <? 128)%N.

(** [base64.b64encode(bs)]: three bytes make four characters, and the
    last group is padded. *)
Fixpoint b64encode (bs : list byte) : list byte :=
  match bs with
  | [] => []
  | [a] =>
      let x := Byte.to_N a in
      [ b64_char (N.shiftr x 2);
        b64_char (N.shiftl (N.land x 3) 4);
        b64_pad; b64_pad ]
  | [a; b] =>
      let x := Byte.to_N a in
      let y := Byte.to_N b in
      [ b64_char (N.shiftr x 2);
        b64_char (N.lor (N.shiftl (N.land x 3) 4) (N.shiftr y 4));
        b64_char (N.shiftl (N.land y 15) 2);
        b64_pad ]
  | a :: b :: c :: rest =>
      let x := Byte.to_N a in
      let y := Byte.to_N b in
      let z := Byte.to_N c in
      b64_char (N.shiftr x 2)
      :: b64_char (N.lor (N.shiftl (N.land x 3) 4) (N.shiftr y 4))
      :: b64_char (N.lor (N.shiftl (N.land y 15) 2) (N.shiftr z 6))
      :: b64_char (N.land z 63)
      :: b64encode rest
  end.

End Codec.

(* ================================================================== *)
(** ** AdmissionHandler (main.py, lines 140-198) *)

(** The Flask request as the handler sees it: the body decoded as JSON,
    or [None] when the body is not a JSON document. *)
Record Request := mkRequest {
  payload : option json
}.

(** [request.get_json(silent=...)].  A body that does not decode raises
    [BadRequest], or gives [None] under [silent=True].  The call of line
    195 is made after the one of line 155 and gets the document that call
    decoded. *)
Definition get_json (silent : bool) (rq : Request) : result json :=
  match payload rq with
  | Some body => Ok body
  | None => if silent then Ok JNull else Raise BadRequest
  end.

(** The dict [response] of line 166, with its two optional keys. *)
Record Response := mkResponse {
  uid : json;
  allowed : bool;
  patch : option string;
  patchType : option string
}.

(** The document passed to [jsonify]: [BLANK_ADMISSIONREVIEW] (line 38)
    extended with the response. *)
Record AdmissionReview := mkReview {
  apiVersion : string;
  kind : string;
  response : Response
}.

Definition admission_review (r : Response) : AdmissionReview :=
  {| apiVersion := "admission.k8s.io/v1"; kind := "AdmissionReview"; response := r |}.

(** The local variables bound by lines 159-164. *)
Record Locals := mkLocals {
  l_uid : json;
  l_kind : json;
  l_operation : list N;
  l_obj : json
}.

(** Lines 155-164: decode the body and read the fields of the request. *)
Definition read_request (rq : Request) : result Locals :=
  body <- get_json false rq ;;
  if negb (Py.isinstance_dict body) then Raise ValueError
  else
    req0 <- Py.get (Py.or_ body Py.empty_dict) "request" ;;
    let req := Py.or_ req0 Py.empty_dict in
    uid <- Py.get req "uid" ;;
    k0 <- Py.get req "kind" ;;
    let kind_info := Py.or_ k0 Py.empty_dict in
    kind <- Py.get kind_info "kind" ;;
    o0 <- Py.get req "operation" ;;
    operation <- Py.upper (Py.or_ o0 (JStr EmptyString)) ;;
    obj0 <- Py.get req "object" ;;
    let obj := Py.or_ obj0 Py.empty_dict in
    Ok {| l_uid := uid; l_kind := kind; l_operation := operation; l_obj := obj |}.

(** [kind in ("Pod", "Deployment")]. *)
Definition kind_is_target (kind : json) : bool :=
  Py.eq_str kind "Pod" || Py.eq_str kind "Deployment".

(** Lines 166-188: the response, paired with the operation sequence [ops]
    the handler computed (empty when [build_patches] is not called).
    Lines 174-186 only write a log record and swallow their own
    exceptions; they do not change the response. *)
Definition respond (cfg : Config) (l : Locals) : result (Response * list PatchOp) :=
  let response := {| uid := l_uid l; allowed := true; patch := None; patchType := None |} in
  if kind_is_target (l_kind l) then
    labelled <- has_target_label cfg (l_obj l) ;;
    if labelled then
      ops <- build_patches cfg (l_kind l) (l_obj l) ;;
      match ops with
      | [] => Ok (response, ops)
      | _ :: _ =>
          let patch_bytes := Codec.encode_utf8 (Codec.json_dumps ops) in
          p <- Codec.decode_utf8 (Codec.b64encode patch_bytes) ;;
          Ok ({| uid := l_uid l; allowed := true;
                 patch := Some p; patchType := Some "JSONPatch" |}, ops)
      end
    else Ok (response, [])
  else Ok (response, []).

(** The [try] block, lines 155-188. *)
Definition mutate_try (cfg : Config) (rq : Request) : result (Response * list PatchOp) :=
  l <- read_request rq ;;
  respond cfg l.

(** Lines 193-197: the uid read again from the body, [None] when that
    fails too. *)
Definition fail_uid (rq : Request) : json :=
  let attempt :=
    body <- get_json true rq ;;
    req0 <- Py.get (Py.or_ body Py.empty_dict) "request" ;;
    Py.get (Py.or_ req0 Py.empty_dict) "uid" in
  match attempt with
  | Ok u => u
  | Raise _ => JNull
  end.

(** What one call of the handler yields: the document it returns and the
    operation sequence it computed on the way. *)
Record Outcome := mkOutcome {
  review : AdmissionReview;
  computed_ops : list PatchOp
}.

(** The handler: the [try] block, and the [except Exception] block of
    lines 190-198 when it raises. *)
Definition mutate (cfg : Config) (rq : Request) : Outcome :=
  match mutate_try cfg rq with
  | Ok (r, ops) => {| review := admission_review r; computed_ops := ops |}
  | Raise _ =>
      {| review := admission_review
                     {| uid := fail_uid rq; allowed := true;
                        patch := None; patchType := None |};
         computed_ops := [] |}
  end.

(* ================================================================== *)
(** ** Sample documents *)

Module Sample.

Definition mount (p : string) : json := JObj [("name", JStr "vol"); ("mountPath", JStr p)].

Definition container (name : string) (mounts : list string) : json :=
  JObj [("name", JStr name); ("volumeMounts", JArr (map mount mounts))].

Definition labels (k v : string) : json := JObj [("labels", JObj [(k, JStr v)])].

(** A Pod with label [nfs-home=true] and one container with the mounts
    [/home], [/data], [/home/x]. *)
Definition pod : json :=
  JObj [ ("metadata", labels "nfs-home" "true");
         ("spec", JObj [("containers", JArr [container "c" ["/home"; "/data"; "/home/x"]])]) ].

(** The same Pod without the label. *)
Definition unlabelled_pod : json :=
  JObj [ ("metadata", JObj [("name", JStr "p")]);
         ("spec", JObj [("containers", JArr [container "c" ["/home"; "/data"; "/home/x"]])]) ].

(** A Deployment whose pod template carries the label and whose own
    metadata does not. *)
Definition template_labelled_deployment : json :=
  JObj [ ("metadata", JObj [("name", JStr "d")]);
         ("spec", JObj [("template",
            JObj [ ("metadata", labels "nfs-home" "true");
                   ("spec", JObj [("containers", JArr [container "c" ["/home"]])]) ])]) ].

(** A labelled Deployment with one container and one init container. *)
Definition deployment : json :=
  JObj [ ("metadata", labels "nfs-home" "true");
         ("spec", JObj [("template",
            JObj [ ("spec", JObj [ ("containers", JArr [container "c" ["/data"; "/home"]]);
                                   ("initContainers", JArr [container "i" ["/home"]]) ]) ])]) ].

(** An AdmissionReview request around [obj]. *)
Definition review_of (k : string) (obj : json) : Request :=
  {| payload := Some (JObj [ ("apiVersion", JStr "admission.k8s.io/v1");
                             ("kind", JStr "AdmissionReview");
                             ("request", JObj [ ("uid", JStr "u-1");
                                                ("kind", JObj [("kind", JStr k)]);
                                                ("operation", JStr "create");
                                                ("object", obj) ]) ]) |}.

End Sample.

(* ================================================================== *)
(** ** Predicates used in the statements *)

Module Spec.

(** The value of field [k] of [v]; [None] when [v] is not a dict or has
    no such key. *)
Definition field (v : json) (k : string) : json :=
  match v with
  | JObj fields =>
      match Py.lookup k fields with
      | Some x => x
      | None => JNull
      end
  | _ => JNull
  end.

(** [obj.metadata.labels] maps the configured key to the configured
    value, as a string. *)
Definition carries_label (cfg : Config) (obj : json) : Prop :=
  exists fields meta labels,
    obj = JObj fields
    /\ Py.lookup "metadata" fields = Some (JObj meta)
    /\ Py.lookup "labels" meta = Some (JObj labels)
    /\ Py.lookup (LABEL_KEY cfg) labels = Some (JStr (LABEL_VALUE cfg)).

(** The path of [o] lies under the container array at [base]. *)
Definition rooted_at (base : string) (o : PatchOp) : Prop :=
  PyStr.startswith (path o) (base ++ "/") = true.

(** [p] is the source prefix or lies under it (the test of line 102). *)
Definition eligible_path (cfg : Config) (p : string) : Prop :=
  p = REWRITE_FROM cfg
  \/ PyStr.startswith p (PyStr.rstrip_slash (REWRITE_FROM cfg) ++ "/") = true.

(** [o] is the operation for mount [j] of container [i]. *)
Definition emitted_by_mount (cfg : Config) (base : string) (i j : nat)
    (mount : json) (o : PatchOp) : Prop :=
  exists p,
    Py.get mount "mountPath" = Ok (JStr p)
    /\ eligible_path cfg p
    /\ replace_home_path cfg p <> p
    /\ o = {| op := "replace";
              path := mount_pointer base i j;
              value := replace_home_path cfg p |}.

(** [o] is the operation for some mount of the container at index [i]
    of [containers], at that mount's own index. *)
Definition emitted_by (cfg : Config) (base : string) (containers : list json)
    (o : PatchOp) : Prop :=
  exists i container vm mounts j mount,
    nth_error containers i = Some container
    /\ Py.get container "volumeMounts" = Ok vm
    /\ Py.iter (Py.or_ vm Py.empty_list) = Ok mounts
    /\ nth_error mounts j = Some mount
    /\ emitted_by_mount cfg base i j mount o.

(** [ops] is what the planner yields for the two container lists [cs]
    (at [base1]) and [ics] (at [base2]): the operations of [cs], each
    addressed by indices into [cs], followed by the operations of [ics],
    each addressed by indices into [ics]. *)
Definition planned (cfg : Config) (base1 base2 : string) (cs ics : json)
    (ops : list PatchOp) : Prop :=
  exists p1 p2 items1 items2,
    ops = (p1 ++ p2)%list
    /\ Py.iter (Py.or_ cs Py.empty_list) = Ok items1
    /\ Py.iter (Py.or_ ics Py.empty_list) = Ok items2
    /\ Forall (emitted_by cfg base1 items1) p1
    /\ Forall (emitted_by cfg base2 items2) p2
    /\ Forall (rooted_at base1) p1
    /\ Forall (rooted_at base2) p2.

(** The base64 text of the UTF-8 JSON serialisation of [ops]. *)
Definition patch_text (ops : list PatchOp) : string :=
  string_of_list_byte (Codec.b64encode (Codec.encode_utf8 (Codec.json_dumps ops))).

(** The response without the optional keys. *)
Definition plain_response (u : json) : Response :=
  {| uid := u; allowed := true; patch := None; patchType := None |}.

(** Shapes on which the accessors do not raise: a field is missing,
    falsy, or of the type the code goes on to use. *)
Definition falsy (v : json) : bool := negb (Py.truthy v).

Definition dict_or_falsy (v : json) : bool := falsy v || Py.isinstance_dict v.

Definition mounts_ok (vm : json) : bool :=
  falsy vm
  || match vm with
     | JArr mounts => forallb Py.isinstance_dict mounts
     | _ => false
     end.

Definition container_ok (c : json) : bool :=
  Py.isinstance_dict c && mounts_ok (field c "volumeMounts").

Definition containers_ok (cs : json) : bool :=
  falsy cs
  || match cs with
     | JArr items => forallb container_ok items
     | _ => false
     end.

Definition labels_ok (obj : json) : bool :=
  Py.isinstance_dict obj
  && dict_or_falsy (field obj "metadata")
  && dict_or_falsy (field (field obj "metadata") "labels").

Definition pod_ok (obj : json) : bool :=
  Py.isinstance_dict obj
  && dict_or_falsy (field obj "spec")
  && containers_ok (field (field obj "spec") "containers")
  && containers_ok (field (field obj "spec") "initContainers").

Definition deployment_ok (obj : json) : bool :=
  let spec := field obj "spec" in
  let template := field spec "template" in
  let template_spec := field template "spec" in
  Py.isinstance_dict obj
  && dict_or_falsy spec
  && dict_or_falsy template
  && dict_or_falsy template_spec
  && containers_ok (field template_spec "containers")
  && containers_ok (field template_spec "initContainers").

End Spec.

(* ================================================================== *)
(** ** Reference definitions for the loops and the request envelope *)

Module Expect.

(** [enumerate(l)] counting from [start]. *)
Definition indexed_from {A : Type} (start : nat) (l : list A) : list (nat * A) :=
  combine (seq start (length l)) l.

(** The operations mount [j] of container [i] contributes: one when its
    [mountPath] is a string that is the source prefix or lies under it and
    is changed by the rewriting, none otherwise. *)
Definition mount_ops (cfg : Config) (base : string) (i j : nat) (mount : json)
    : list PatchOp :=
  match Spec.field mount "mountPath" with
  | JStr p =>
      if (String.eqb p (REWRITE_FROM cfg)
          || PyStr.startswith p (PyStr.rstrip_slash (REWRITE_FROM cfg) ++ "/"))
         && negb (String.eqb (replace_home_path cfg p) p)
      then [ {| op := "replace"; path := mount_pointer base i j;
                value := replace_home_path cfg p |} ]
      else []
  | _ => []
  end.

(** The mounts a container is iterated over: [volumeMounts or []]. *)
Definition mounts_of (container : json) : list json :=
  match Py.iter (Py.or_ (Spec.field container "volumeMounts") Py.empty_list) with
  | Ok mounts => mounts
  | Raise _ => []
  end.

Definition container_ops (cfg : Config) (base : string) (i : nat) (container : json)
    : list PatchOp :=
  flat_map (fun jm => mount_ops cfg base i (fst jm) (snd jm))
           (indexed_from 0 (mounts_of container)).

(** The comprehension the two nested loops compute: containers in order,
    and within a container its mounts in order. *)
Definition expected_ops (cfg : Config) (base : string) (containers : list json)
    : list PatchOp :=
  flat_map (fun ic => container_ops cfg base (fst ic) (snd ic))
           (indexed_from 0 containers).

(** The items a container list is iterated over: [containers or []]. *)
Definition items_of (containers : json) : list json :=
  match Py.iter (Py.or_ containers Py.empty_list) with
  | Ok items => items
  | Raise _ => []
  end.

(** The whole patch document for a kind: the comprehension over
    [containers], then the one over [initContainers], at the place the
    kind keeps them; nothing for any other kind. *)
Definition planned_ops (cfg : Config) (kind obj : json) : list PatchOp :=
  if Py.eq_str kind "Pod" then
    let spec := Spec.field obj "spec" in
    (expected_ops cfg "/spec/containers" (items_of (Spec.field spec "containers"))
     ++ expected_ops cfg "/spec/initContainers"
          (items_of (Spec.field spec "initContainers")))%list
  else if Py.eq_str kind "Deployment" then
    let spec := Spec.field (Spec.field (Spec.field obj "spec") "template") "spec" in
    (expected_ops cfg "/spec/template/spec/containers"
       (items_of (Spec.field spec "containers"))
     ++ expected_ops cfg "/spec/template/spec/initContainers"
          (items_of (Spec.field spec "initContainers")))%list
  else [].

(** A string without separator. *)
Fixpoint no_slash (s : string) : bool :=
  match s with
  | EmptyString => true
  | String c r => negb (Ascii.eqb c PyStr.slash) && no_slash r
  end.

Definition str_or_falsy (v : json) : bool :=
  Spec.falsy v
  || match v with
     | JStr _ => true
     | _ => false
     end.

(** The envelope shapes on which lines 155-164 do not raise. *)
Definition request_ok (body : json) : bool :=
  let req := Spec.field body "request" in
  Py.isinstance_dict body
  && Spec.dict_or_falsy req
  && Spec.dict_or_falsy (Spec.field req "kind")
  && str_or_falsy (Spec.field req "operation").

(** The values lines 159-164 bind on such an envelope. *)
Definition locals_of (body : json) : Locals :=
  let req := Spec.field body "request" in
  {| l_uid := Spec.field req "uid";
     l_kind := Spec.field (Spec.field req "kind") "kind";
     l_operation :=
       match Spec.field req "operation" with
       | JStr s => PyStr.upper s
       | _ => []
       end;
     l_obj := Py.or_ (Spec.field req "object") Py.empty_dict |}.

(** The object shape on which the planner does not raise for [kind]. *)
Definition object_ok (kind obj : json) : bool :=
  if Py.eq_str kind "Pod" then Spec.pod_ok obj
  else if Py.eq_str kind "Deployment" then Spec.deployment_ok obj
  else true.

(** The shapes on which the whole [try] block does not raise: the
    envelope is well shaped and, as far as the gate lets the handler look,
    so are the labels and the container lists. *)
Definition handled_ok (cfg : Config) (body : json) : bool :=
  request_ok body
  && (let l := locals_of body in
      if kind_is_target (l_kind l) then
        Spec.labels_ok (l_obj l)
        && match has_target_label cfg (l_obj l) with
           | Ok true => object_ok (l_kind l) (l_obj l)
           | _ => true
           end
      else true).

End Expect.

(* ================================================================== *)
(** * Verification *)

(** ** Facts about the string operations *)

Section StringFacts.

Import PyStr.

Lemma str_length_app (s t : string) :
  String.length (s ++ t) = String.length s + String.length t.
Proof.
  induction s as [|c s IH]; simpl; [reflexivity | now rewrite IH].
Qed.

Lemma str_app_empty_r (s : string) : s ++ EmptyString = s.
Proof.
  induction s as [|c s IH]; simpl; [reflexivity | now rewrite IH].
Qed.

Lemma str_app_assoc (s t u : string) : (s ++ t) ++ u = s ++ (t ++ u).
Proof.
  induction s as [|c s IH]; simpl; [reflexivity | now rewrite IH].
Qed.

Lemma str_app_inv_head (s t u : string) : s ++ t = s ++ u -> t = u.
Proof.
  induction s as [|c s IH]; simpl; intros H; [exact H|].
  injection H as H. auto.
Qed.

Lemma prefix_nil (t : string) : String.prefix EmptyString t = true.
Proof. destruct t; reflexivity. Qed.

Lemma prefix_refl_app (s t : string) : String.prefix s (s ++ t) = true.
Proof.
  induction s as [|c s IH]; simpl; [apply prefix_nil|].
  destruct (ascii_dec c c) as [_|n]; [exact IH | now elim n].
Qed.

Lemma prefix_app_inv (p s : string) :
  String.prefix p s = true -> exists t, s = p ++ t.
Proof.
  revert s; induction p as [|c p IH]; intros s H.
  - exists s; reflexivity.
  - destruct s as [|d s]; simpl in H; [discriminate|].
    destruct (ascii_dec c d) as [->|]; [|discriminate].
    destruct (IH _ H) as [t ->]. exists t; reflexivity.
Qed.

Lemma drop_0 (s : string) : drop 0 s = s.
Proof. destruct s; reflexivity. Qed.

Lemma drop_empty (n : nat) : drop n EmptyString = EmptyString.
Proof. destruct n; reflexivity. Qed.

Lemma drop_length_app (s t : string) : drop (String.length s) (s ++ t) = t.
Proof.
  induction s as [|c s IH]; simpl; [apply drop_0 | exact IH].
Qed.

Lemma drop_drop (a b : nat) (s : string) : drop a (drop b s) = drop (b + a) s.
Proof.
  revert s; induction b as [|b IH]; intros s; simpl.
  - reflexivity.
  - destruct s as [|c s]; [now rewrite drop_empty | apply IH].
Qed.

Lemma drop_length_le (n : nat) (s : string) :
  String.length (drop n s) <= String.length s.
Proof.
  revert s; induction n as [|n IH]; intros s; simpl.
  - lia.
  - destruct s as [|c s]; simpl; [lia|]. specialize (IH s). lia.
Qed.

Lemma drop_length_lt (n : nat) (s : string) :
  0 < n -> s <> EmptyString -> String.length (drop n s) < String.length s.
Proof.
  intros Hn Hs. destruct n as [|n]; [lia|].
  destruct s as [|c s]; [now elim Hs|]. simpl.
  pose proof (drop_length_le n s). lia.
Qed.

(** A non-negative slice index drops that many characters. *)
Lemma slice_from_nat (n : nat) (s : string) : slice_from (Z.of_nat n) s = drop n s.
Proof.
  unfold slice_from.
  destruct (Z.ltb_spec (Z.of_nat n) 0) as [H|_]; [lia|].
  now rewrite Nat2Z.id.
Qed.

Lemma rstrip_slash_slashes (k : nat) : rstrip_slash (slashes k) = EmptyString.
Proof.
  induction k as [|k IH]; simpl; [reflexivity|]. now rewrite IH.
Qed.

(** [rstrip_slash] removes a run of trailing separators... *)
Lemma rstrip_slash_decompose (s : string) :
  exists k, s = rstrip_slash s ++ slashes k.
Proof.
  induction s as [|c s [k IH]]; simpl.
  - exists 0; reflexivity.
  - destruct (rstrip_slash s) as [|d r] eqn:E.
    + destruct (Ascii.eqb_spec c slash) as [->|_].
      * exists (S k). simpl in *. now rewrite IH at 1.
      * exists k. simpl in *. now rewrite IH at 1.
    + exists k. simpl. now rewrite IH at 1.
Qed.

(** ... and removes all of it. *)
Lemma rstrip_slash_no_trailing (s : string) :
  ends_with_slash (rstrip_slash s) = false.
Proof.
  induction s as [|c s IH]; simpl; [reflexivity|].
  destruct (rstrip_slash s) as [|d r] eqn:E.
  - destruct (Ascii.eqb_spec c slash) as [->|n]; simpl; [reflexivity|].
    now apply Ascii.eqb_neq.
  - simpl in *. exact IH.
Qed.

Lemma rstrip_slash_length (s : string) :
  String.length (rstrip_slash s) <= String.length s.
Proof.
  destruct (rstrip_slash_decompose s) as [k H].
  rewrite H at 2. rewrite str_length_app. lia.
Qed.

(** A descendant [s/t] of [s] starts with the stripped prefix and a
    separator. *)
Lemma startswith_descendant (s t : string) :
  startswith (s ++ "/" ++ t) (rstrip_slash s ++ "/") = true.
Proof.
  unfold startswith.
  induction s as [|c s IH]; simpl; [apply prefix_nil|].
  destruct (rstrip_slash s) as [|d r] eqn:E.
  - destruct (Ascii.eqb_spec c slash) as [->|n]; simpl.
    + apply prefix_nil.
    + destruct (ascii_dec c c) as [_|n']; [exact IH | now elim n'].
  - simpl. destruct (ascii_dec c c) as [_|n']; [exact IH | now elim n'].
Qed.

Lemma str_app_neq_self (s t : string) : t <> EmptyString -> s ++ t <> s.
Proof.
  intros Ht H. assert (L : String.length (s ++ t) = String.length s) by now rewrite H.
  rewrite str_length_app in L. destruct t; [now elim Ht | simpl in L; lia].
Qed.

End StringFacts.

(* ================================================================== *)
(** ** PathRewriter *)

Section PathRewriter.

Import PyStr.

Variable cfg : Config.

Local Abbreviation S_ := (REWRITE_FROM cfg).
Local Abbreviation D_ := (REWRITE_TO cfg).

Example rstrip_trailing : rstrip_slash "/blah/home//" = "/blah/home".
Proof. reflexivity. Qed.

Example rstrip_all_slashes : rstrip_slash "//" = EmptyString.
Proof. reflexivity. Qed.

Example rstrip_inner_kept : rstrip_slash "a//b/" = "a//b".
Proof. reflexivity. Qed.

Example replace_sibling_unchanged :
  replace_home_path default_config "/homework" = "/homework".
Proof. reflexivity. Qed.

(** What the second branch of [replace_home_path] computes for a
    descendant [S/T]: the two slices of line 73 together drop
    [len(S.rstrip("/")) + len(S)] characters, that is, [len(S.rstrip("/"))]
    characters more than the prefix [S]. *)
Lemma replace_home_path_descendant (T : string) :
  replace_home_path cfg (S_ ++ "/" ++ T)
  = rstrip_slash D_ ++ drop (String.length (rstrip_slash S_)) ("/" ++ T).
Proof.
  unfold replace_home_path.
  destruct (String.eqb_spec (S_ ++ "/" ++ T) S_) as [E|_].
  - exfalso. revert E. apply str_app_neq_self. discriminate.
  - rewrite startswith_descendant.
    f_equal. unfold len.
    rewrite str_length_app. simpl String.length.
    replace (Z.of_nat (String.length (rstrip_slash S_) + 1) - 1)%Z
      with (Z.of_nat (String.length (rstrip_slash S_))) by lia.
    rewrite !slice_from_nat, drop_drop.
    rewrite Nat.add_comm, <- drop_drop.
    now rewrite drop_length_app.
Qed.

(** So the result is the intended one exactly when the source prefix
    consists of separators only; for every other prefix, the default
    [/home] among them, every descendant is rewritten to a wrong path. *)
Lemma replace_home_path_descendant_wrong (T : string) :
  rstrip_slash S_ <> EmptyString ->
  replace_home_path cfg (S_ ++ "/" ++ T) <> rstrip_slash D_ ++ "/" ++ T.
Proof.
  intros HS H. rewrite replace_home_path_descendant in H.
  apply str_app_inv_head in H.
  assert (L : String.length (drop (String.length (rstrip_slash S_)) ("/" ++ T))
              < String.length ("/" ++ T)).
  { apply drop_length_lt; [|discriminate].
    destruct (rstrip_slash S_); [now elim HS | simpl; lia]. }
  rewrite H in L. lia.
Qed.

(** C1 (evaluation at the failing input): under the default
    configuration the descendant [/home/alice] of the source prefix is
    rewritten to [/blah/homee], not to [/blah/home/alice]: the second
    slice of line 73 removes [len("/home")] characters from the remainder
    [/alice] instead of none. *)
Theorem replace_home_path_descendant_default :
  replace_home_path default_config ("/home" ++ "/" ++ "alice") = "/blah/homee"
  /\ replace_home_path default_config "/home/alice" <> "/blah/home" ++ "/" ++ "alice".
Proof.
  split; [reflexivity | discriminate].
Qed.

(** C3: applied to a path equal to the source prefix,
    [replace_home_path] returns the destination prefix with its run of
    trailing separators replaced by exactly one separator: the result is
    [base/] where the destination is [base] followed by separators only
    and [base] does not end with a separator.  Under the default
    configuration [/home] becomes [/blah/home/]. *)
Theorem replace_home_path_exact :
  let base := rstrip_slash D_ in
  replace_home_path cfg S_ = base ++ "/"
  /\ (exists k, D_ = base ++ slashes k)
  /\ ends_with_slash base = false
  /\ replace_home_path default_config "/home" = "/blah/home/".
Proof.
  cbv zeta. repeat split.
  - unfold replace_home_path. now rewrite String.eqb_refl.
  - apply rstrip_slash_decompose.
  - apply rstrip_slash_no_trailing.
Qed.

(** C4: a path that is neither equal to the source prefix nor starts
    with the stripped source prefix followed by a separator is returned
    unchanged. *)
Theorem replace_home_path_identity (P : string) :
  P <> S_ ->
  startswith P (rstrip_slash S_ ++ "/") = false ->
  replace_home_path cfg P = P.
Proof.
  intros Hne Hpre. unfold replace_home_path.
  destruct (String.eqb_spec P S_) as [E|_]; [now elim Hne|].
  now rewrite Hpre.
Qed.

End PathRewriter.

Lemma replace_home_path_identity_witness :
  "/data" <> REWRITE_FROM default_config
  /\ PyStr.startswith "/data" (PyStr.rstrip_slash (REWRITE_FROM default_config) ++ "/") = false
  /\ replace_home_path default_config "/data" = "/data".
Proof.
  split; [discriminate|]. split; [reflexivity|].
  apply (replace_home_path_identity default_config "/data"); [discriminate | reflexivity].
Defined.

(* ================================================================== *)
(** ** LabelMatcher *)

Section LabelMatcher.

Import Spec.

Variable cfg : Config.

Lemma get_field (fields : list (string * json)) (k : string) :
  Py.get (JObj fields) k = Ok (field (JObj fields) k).
Proof.
  simpl. destruct (Py.lookup k fields); reflexivity.
Qed.

Lemma get_of_dict (v : json) (k : string) :
  Py.isinstance_dict v = true -> Py.get v k = Ok (field v k).
Proof.
  destruct v; try discriminate. intros _. apply get_field.
Qed.

Lemma get_or_empty (v : json) (k : string) :
  dict_or_falsy v = true ->
  Py.get (Py.or_ v Py.empty_dict) k = Ok (field v k).
Proof.
  unfold dict_or_falsy, falsy, Py.or_. intros H.
  destruct (Py.truthy v) eqn:T; simpl in H.
  - now apply get_of_dict.
  - destruct v; try reflexivity.
    destruct fields; [reflexivity | discriminate].
Qed.

Lemma or_empty_is_dict (v : json) :
  dict_or_falsy v = true -> Py.isinstance_dict (Py.or_ v Py.empty_dict) = true.
Proof.
  unfold dict_or_falsy, falsy, Py.or_. intros H.
  destruct (Py.truthy v); simpl in H; [exact H | reflexivity].
Qed.

Lemma get_ok_inv (v x : json) (k : string) :
  Py.get v k = Ok x -> exists fields, v = JObj fields /\ x = field v k.
Proof.
  destruct v; try discriminate. rewrite get_field.
  intros H. injection H as <-. eauto.
Qed.

Lemma or_dict_inv (v : json) (fields : list (string * json)) :
  Py.or_ v Py.empty_dict = JObj fields ->
  fields <> [] -> v = JObj fields.
Proof.
  unfold Py.or_. destruct (Py.truthy v); [auto|].
  intros H Hne. injection H as <-. now elim Hne.
Qed.

Lemma eq_str_true (v : json) (s : string) :
  Py.eq_str v s = true <-> v = JStr s.
Proof.
  destruct v; simpl; split; try discriminate.
  - intros H. apply String.eqb_eq in H. now subst.
  - intros H. injection H as ->. apply String.eqb_refl.
Qed.

Lemma lookup_some_nonempty (k : string) (fields : list (string * json)) (x : json) :
  Py.lookup k fields = Some x -> fields <> [].
Proof. destruct fields; [discriminate | discriminate]. Qed.

Lemma field_some (fields : list (string * json)) (k : string) (x : json) :
  field (JObj fields) k = x -> x <> JNull -> Py.lookup k fields = Some x.
Proof.
  simpl. destruct (Py.lookup k fields); intros <- H; [reflexivity | now elim H].
Qed.

(** [has_target_label] answers [True] exactly on the objects that carry
    the configured label. *)
Lemma has_target_label_true (obj : json) :
  has_target_label cfg obj = Ok true <-> carries_label cfg obj.
Proof.
  unfold has_target_label, carries_label. split.
  - intros H.
    destruct (Py.get obj "metadata") as [md|] eqn:E1; [|discriminate]. simpl in H.
    destruct (Py.get (Py.or_ md Py.empty_dict) "labels") as [lb|] eqn:E2; [|discriminate].
    simpl in H.
    destruct (Py.get (Py.or_ lb Py.empty_dict) (LABEL_KEY cfg)) as [v|] eqn:E3; [|discriminate].
    simpl in H. injection H as H. apply eq_str_true in H. subst v.
    apply get_ok_inv in E3. destruct E3 as (labels & Hl & Hv).
    rewrite Hl in Hv. symmetry in Hv. apply field_some in Hv; [|discriminate].
    apply or_dict_inv in Hl; [|eapply lookup_some_nonempty; eauto]. subst lb.
    apply get_ok_inv in E2. destruct E2 as (meta & Hm & Hlb).
    rewrite Hm in Hlb. symmetry in Hlb. apply field_some in Hlb; [|discriminate].
    apply or_dict_inv in Hm; [|eapply lookup_some_nonempty; eauto]. subst md.
    apply get_ok_inv in E1. destruct E1 as (fields & Ho & Hmd).
    rewrite Ho in Hmd. symmetry in Hmd. apply field_some in Hmd; [|discriminate].
    exists fields, meta, labels. auto.
  - intros (fields & meta & labels & -> & Hm & Hl & Hv).
    simpl. rewrite Hm. simpl.
    assert (Tm : Py.or_ (JObj meta) Py.empty_dict = JObj meta).
    { unfold Py.or_. simpl. destruct meta; [discriminate | reflexivity]. }
    rewrite Tm. simpl. rewrite Hl. simpl.
    assert (Tl : Py.or_ (JObj labels) Py.empty_dict = JObj labels).
    { unfold Py.or_. simpl. destruct labels; [discriminate | reflexivity]. }
    rewrite Tl. simpl. rewrite Hv. simpl. now rewrite String.eqb_refl.
Qed.

(** On an object of the expected shape [has_target_label] returns. *)
Lemma has_target_label_total (obj : json) :
  labels_ok obj = true -> exists b, has_target_label cfg obj = Ok b.
Proof.
  unfold labels_ok. intros H.
  apply andb_prop in H. destruct H as [H H3].
  apply andb_prop in H. destruct H as [H1 H2].
  unfold has_target_label.
  rewrite (get_of_dict _ _ H1). simpl.
  rewrite (get_or_empty _ _ H2). simpl.
  rewrite (get_of_dict _ _ (or_empty_is_dict _ H3)). simpl. eauto.
Qed.

(** Absent or falsy metadata means no labels. *)
Lemma has_target_label_no_metadata (obj : json) :
  Py.isinstance_dict obj = true ->
  falsy (field obj "metadata") = true ->
  has_target_label cfg obj = Ok false.
Proof.
  intros H1 H2. unfold has_target_label.
  rewrite (get_of_dict _ _ H1). simpl.
  unfold falsy in H2. apply negb_true_iff in H2.
  unfold Py.or_. rewrite H2. reflexivity.
Qed.

(** [has_target_label] reads nothing but the [metadata] field. *)
Lemma has_target_label_metadata_only (o1 o2 : json) :
  Py.get o1 "metadata" = Py.get o2 "metadata" ->
  has_target_label cfg o1 = has_target_label cfg o2.
Proof.
  intros H. unfold has_target_label. now rewrite H.
Qed.

End LabelMatcher.

(* ================================================================== *)
(** ** ContainerPatchBuilder *)

Section ContainerPatchBuilder.

Import Spec.

Variable cfg : Config.
Variable base : string.

(** One turn of the inner loop appends at most one operation, the one
    for that mount. *)
Lemma visit_mount_inv (i j : nat) (mount : json) (acc out : list PatchOp) :
  visit_mount cfg base i j mount acc = Ok out ->
  out = acc \/ exists o, emitted_by_mount cfg base i j mount o /\ out = (acc ++ [o])%list.
Proof.
  unfold visit_mount. intros H.
  destruct (Py.get mount "mountPath") as [mp|] eqn:E; [|discriminate]. simpl in H.
  destruct mp; try (injection H as <-; now left).
  destruct (String.eqb s (REWRITE_FROM cfg) ||
            PyStr.startswith s (PyStr.rstrip_slash (REWRITE_FROM cfg) ++ "/")) eqn:El;
    [|injection H as <-; now left].
  destruct (String.eqb_spec (replace_home_path cfg s) s) as [Es|Ns]; simpl in H;
    injection H as <-; [now left|].
  right. eexists. split; [|reflexivity].
  exists s. repeat split; auto.
  unfold eligible_path. apply orb_prop in El. destruct El as [El|El]; [left|now right].
  now apply String.eqb_eq.
Qed.

Lemma mounts_loop_inv (i : nat) (mounts : list json) :
  forall (j0 : nat) (acc out : list PatchOp),
    mounts_loop cfg base i j0 mounts acc = Ok out ->
    exists new,
      out = (acc ++ new)%list
      /\ Forall (fun o => exists j mount,
                   nth_error mounts j = Some mount
                   /\ emitted_by_mount cfg base i (j0 + j) mount o) new.
Proof.
  induction mounts as [|m ms IH]; intros j0 acc out H; simpl in H.
  - injection H as <-. exists []. split; [now rewrite app_nil_r | constructor].
  - destruct (visit_mount cfg base i j0 m acc) as [acc'|] eqn:E; [|discriminate].
    simpl in H. apply IH in H. destruct H as (new & -> & Hnew).
    assert (Hshift : Forall (fun o => exists j mount,
                        nth_error (m :: ms) j = Some mount
                        /\ emitted_by_mount cfg base i (j0 + j) mount o) new).
    { eapply Forall_impl; [|exact Hnew]. intros o (j & mount & Hj & Ho).
      exists (S j), mount. split; [exact Hj|].
      now replace (j0 + S j) with (S j0 + j) by lia. }
    apply visit_mount_inv in E. destruct E as [->|(o & Ho & ->)].
    + exists new. split; [reflexivity | exact Hshift].
    + exists (o :: new). split; [now rewrite <- app_assoc|].
      constructor; [|exact Hshift].
      exists 0, m. split; [reflexivity|]. now rewrite Nat.add_0_r.
Qed.

Lemma containers_loop_inv (containers : list json) :
  forall (i0 : nat) (acc out : list PatchOp),
    containers_loop cfg base i0 containers acc = Ok out ->
    exists new,
      out = (acc ++ new)%list
      /\ Forall (fun o => exists i container vm mounts j mount,
                   nth_error containers i = Some container
                   /\ Py.get container "volumeMounts" = Ok vm
                   /\ Py.iter (Py.or_ vm Py.empty_list) = Ok mounts
                   /\ nth_error mounts j = Some mount
                   /\ emitted_by_mount cfg base (i0 + i) j mount o) new.
Proof.
  induction containers as [|c cs IH]; intros i0 acc out H; simpl in H.
  - injection H as <-. exists []. split; [now rewrite app_nil_r | constructor].
  - destruct (Py.get c "volumeMounts") as [vm|] eqn:E1; [|discriminate]. simpl in H.
    destruct (Py.iter (Py.or_ vm Py.empty_list)) as [mounts|] eqn:E2; [|discriminate].
    simpl in H.
    destruct (mounts_loop cfg base i0 0 mounts acc) as [acc'|] eqn:E3; [|discriminate].
    simpl in H. apply IH in H. destruct H as (new2 & -> & H2).
    apply mounts_loop_inv in E3. destruct E3 as (new1 & -> & H1).
    exists (new1 ++ new2)%list. split; [now rewrite <- app_assoc|].
    apply Forall_app. split.
    + eapply Forall_impl; [|exact H1]. intros o (j & mount & Hj & Ho).
      exists 0, c, vm, mounts, j, mount. simpl in Ho.
      rewrite Nat.add_0_r. repeat split; auto.
    + eapply Forall_impl; [|exact H2].
      intros o (i & c' & vm' & ms' & j & mount & Hi & Hv & Hm & Hj & Ho).
      exists (S i), c', vm', ms', j, mount.
      replace (i0 + S i) with (S i0 + i) by lia. repeat split; auto.
Qed.

(** Every operation [patches_for_volume_mounts] returns is a [replace]
    of an eligible mount path by its rewriting, addressed by the index
    of its container in the list given and the index of the mount in
    that container, both counted from 0. *)
Lemma patches_for_volume_mounts_sound (containers : json) (ops : list PatchOp) :
  patches_for_volume_mounts cfg base containers = Ok ops ->
  exists items,
    Py.iter (Py.or_ containers Py.empty_list) = Ok items
    /\ Forall (emitted_by cfg base items) ops.
Proof.
  unfold patches_for_volume_mounts. intros H.
  destruct (Py.iter (Py.or_ containers Py.empty_list)) as [items|] eqn:E; [|discriminate].
  simpl in H. apply containers_loop_inv in H. destruct H as (new & -> & H).
  exists items. split; [reflexivity|]. exact H.
Qed.

Lemma mount_pointer_rooted (i j : nat) :
  PyStr.startswith (mount_pointer base i j) (base ++ "/") = true.
Proof.
  unfold PyStr.startswith, mount_pointer.
  rewrite <- str_app_assoc. apply prefix_refl_app.
Qed.

Lemma emitted_by_rooted (items : list json) (o : PatchOp) :
  emitted_by cfg base items o -> rooted_at base o /\ op o = "replace".
Proof.
  intros (i & c & vm & ms & j & m & _ & _ & _ & _ & p & _ & _ & _ & ->).
  split; [|reflexivity].
  apply mount_pointer_rooted.
Qed.

Lemma patches_for_volume_mounts_rooted (containers : json) (ops : list PatchOp) :
  patches_for_volume_mounts cfg base containers = Ok ops ->
  Forall (rooted_at base) ops.
Proof.
  intros H. apply patches_for_volume_mounts_sound in H.
  destruct H as (items & _ & H).
  eapply Forall_impl; [|exact H]. intros o Ho.
  now apply emitted_by_rooted in Ho.
Qed.

(** The loops return on lists of the expected shape. *)
Lemma visit_mount_total (i j : nat) (mount : json) (acc : list PatchOp) :
  Py.isinstance_dict mount = true ->
  exists out, visit_mount cfg base i j mount acc = Ok out.
Proof.
  intros H. unfold visit_mount. rewrite (get_of_dict _ _ H). simpl.
  destruct (field mount "mountPath"); eauto.
  destruct (_ || _); eauto. destruct (negb _); eauto.
Qed.

Lemma mounts_loop_total (i : nat) (mounts : list json) :
  forallb Py.isinstance_dict mounts = true ->
  forall j0 acc, exists out, mounts_loop cfg base i j0 mounts acc = Ok out.
Proof.
  induction mounts as [|m ms IH]; intros H j0 acc; simpl.
  - eauto.
  - simpl in H. apply andb_prop in H. destruct H as [Hm Hms].
    destruct (visit_mount_total i j0 m acc Hm) as [acc' ->]. simpl. now apply IH.
Qed.

Lemma iter_mounts_ok (vm : json) :
  mounts_ok vm = true ->
  exists mounts, Py.iter (Py.or_ vm Py.empty_list) = Ok mounts
                 /\ forallb Py.isinstance_dict mounts = true.
Proof.
  unfold mounts_ok, falsy, Py.or_. intros H.
  destruct (Py.truthy vm) eqn:T; simpl in H.
  - destruct vm; try discriminate. simpl. eauto.
  - exists []. split; reflexivity.
Qed.

Lemma containers_loop_total (containers : list json) :
  forallb container_ok containers = true ->
  forall i0 acc, exists out, containers_loop cfg base i0 containers acc = Ok out.
Proof.
  induction containers as [|c cs IH]; intros H i0 acc; simpl.
  - eauto.
  - simpl in H. apply andb_prop in H. destruct H as [Hc Hcs].
    unfold container_ok in Hc. apply andb_prop in Hc. destruct Hc as [Hd Hm].
    rewrite (get_of_dict _ _ Hd). simpl.
    destruct (iter_mounts_ok _ Hm) as (mounts & -> & Hms). simpl.
    destruct (mounts_loop_total i0 mounts Hms 0 acc) as [acc' ->]. simpl.
    now apply IH.
Qed.

Lemma patches_for_volume_mounts_total (containers : json) :
  containers_ok containers = true ->
  exists ops, patches_for_volume_mounts cfg base containers = Ok ops.
Proof.
  unfold containers_ok, falsy, patches_for_volume_mounts, Py.or_. intros H.
  destruct (Py.truthy containers) eqn:T; simpl in H.
  - destruct containers; try discriminate. simpl.
    now apply containers_loop_total.
  - simpl. eauto.
Qed.

(** An absent or falsy container list is an empty one. *)
Lemma patches_for_volume_mounts_falsy (containers : json) :
  falsy containers = true ->
  patches_for_volume_mounts cfg base containers = Ok [].
Proof.
  unfold falsy, patches_for_volume_mounts, Py.or_. intros H.
  apply negb_true_iff in H. now rewrite H.
Qed.

End ContainerPatchBuilder.

(* ================================================================== *)
(** ** ResourcePatchPlanner *)

Section ResourcePatchPlanner.

Import Spec.

Variable cfg : Config.

Lemma or_list_idem (v : json) :
  Py.or_ (Py.or_ v Py.empty_list) Py.empty_list = Py.or_ v Py.empty_list.
Proof.
  unfold Py.or_. destruct (Py.truthy v) eqn:T; [now rewrite T | reflexivity].
Qed.

Lemma patches_for_volume_mounts_or (base : string) (v : json) :
  patches_for_volume_mounts cfg base (Py.or_ v Py.empty_list)
  = patches_for_volume_mounts cfg base v.
Proof.
  unfold patches_for_volume_mounts. now rewrite or_list_idem.
Qed.

(** [(v or {}).get(k)], when it returns, returns field [k] of [v]. *)
Lemma get_or_empty_inv (v x : json) (k : string) :
  Py.get (Py.or_ v Py.empty_dict) k = Ok x -> x = field v k /\ dict_or_falsy v = true.
Proof.
  unfold Py.or_, dict_or_falsy, falsy.
  destruct (Py.truthy v) eqn:T; intros H.
  - apply get_ok_inv in H. destruct H as (fields & -> & ->). auto.
  - simpl in H. injection H as <-. split; [|reflexivity].
    destruct v; try reflexivity.
    destruct fields; [reflexivity | discriminate].
Qed.

(** The two calls of the planner, at the bases [base1] and [base2]. *)
Lemma two_passes_planned (base1 base2 : string) (cs ics : json) (ops : list PatchOp) :
  (p1 <- patches_for_volume_mounts cfg base1 (Py.or_ cs Py.empty_list) ;;
   p2 <- patches_for_volume_mounts cfg base2 (Py.or_ ics Py.empty_list) ;;
   Ok (([] ++ p1) ++ p2)%list) = Ok ops ->
  planned cfg base1 base2 cs ics ops.
Proof.
  rewrite !patches_for_volume_mounts_or. intros H.
  destruct (patches_for_volume_mounts cfg base1 cs) as [p1|] eqn:E1; [|discriminate].
  simpl in H.
  destruct (patches_for_volume_mounts cfg base2 ics) as [p2|] eqn:E2; [|discriminate].
  simpl in H. injection H as <-.
  pose proof (patches_for_volume_mounts_rooted _ _ _ _ E1) as R1.
  pose proof (patches_for_volume_mounts_rooted _ _ _ _ E2) as R2.
  apply patches_for_volume_mounts_sound in E1. destruct E1 as (items1 & I1 & S1).
  apply patches_for_volume_mounts_sound in E2. destruct E2 as (items2 & I2 & S2).
  exists p1, p2, items1, items2. repeat split; assumption.
Qed.

Lemma build_patches_pod (obj : json) (ops : list PatchOp) :
  build_patches cfg (JStr "Pod") obj = Ok ops ->
  planned cfg "/spec/containers" "/spec/initContainers"
    (field (field obj "spec") "containers")
    (field (field obj "spec") "initContainers") ops.
Proof.
  unfold build_patches. simpl Py.eq_str. cbv iota. intros H.
  destruct (Py.get obj "spec") as [spec0|] eqn:E0; [|discriminate]. simpl in H.
  apply get_ok_inv in E0. destruct E0 as (fields & -> & ->).
  set (spec0 := field (JObj fields) "spec") in *.
  destruct (Py.get (Py.or_ spec0 Py.empty_dict) "containers") as [c0|] eqn:E1;
    [|discriminate]. simpl in H.
  destruct (Py.get (Py.or_ spec0 Py.empty_dict) "initContainers") as [i0|] eqn:E2;
    [|discriminate]. simpl in H.
  apply get_or_empty_inv in E1. destruct E1 as [-> _].
  apply get_or_empty_inv in E2. destruct E2 as [-> _].
  now apply two_passes_planned.
Qed.

Lemma build_patches_deployment (obj : json) (ops : list PatchOp) :
  build_patches cfg (JStr "Deployment") obj = Ok ops ->
  planned cfg "/spec/template/spec/containers" "/spec/template/spec/initContainers"
    (field (field (field (field obj "spec") "template") "spec") "containers")
    (field (field (field (field obj "spec") "template") "spec") "initContainers") ops.
Proof.
  unfold build_patches. simpl Py.eq_str. cbv iota. intros H.
  destruct (Py.get obj "spec") as [spec0|] eqn:E0; [|discriminate]. simpl in H.
  apply get_ok_inv in E0. destruct E0 as (fields & -> & ->).
  set (spec0 := field (JObj fields) "spec") in *.
  destruct (Py.get (Py.or_ spec0 Py.empty_dict) "template") as [t0|] eqn:Et;
    [|discriminate]. simpl in H.
  apply get_or_empty_inv in Et. destruct Et as [-> _].
  set (t0 := field spec0 "template") in *.
  destruct (Py.get (Py.or_ t0 Py.empty_dict) "spec") as [ts0|] eqn:Es;
    [|discriminate]. simpl in H.
  apply get_or_empty_inv in Es. destruct Es as [-> _].
  set (ts0 := field t0 "spec") in *.
  destruct (Py.get (Py.or_ ts0 Py.empty_dict) "containers") as [c0|] eqn:E1;
    [|discriminate]. simpl in H.
  destruct (Py.get (Py.or_ ts0 Py.empty_dict) "initContainers") as [i0|] eqn:E2;
    [|discriminate]. simpl in H.
  apply get_or_empty_inv in E1. destruct E1 as [-> _].
  apply get_or_empty_inv in E2. destruct E2 as [-> _].
  now apply two_passes_planned.
Qed.

Lemma build_patches_other (kind obj : json) :
  kind <> JStr "Pod" -> kind <> JStr "Deployment" ->
  build_patches cfg kind obj = Ok [].
Proof.
  intros H1 H2. unfold build_patches.
  destruct (Py.eq_str kind "Pod") eqn:E1; [apply eq_str_true in E1; now elim H1|].
  destruct (Py.eq_str kind "Deployment") eqn:E2; [apply eq_str_true in E2; now elim H2|].
  reflexivity.
Qed.

(** A path under the pod template is not a path under [/spec/containers]. *)
Lemma template_path_not_top_level (o : PatchOp) :
  rooted_at "/spec/template/spec/containers" o
  \/ rooted_at "/spec/template/spec/initContainers" o ->
  PyStr.startswith (path o) "/spec/containers" = false.
Proof.
  unfold rooted_at, PyStr.startswith.
  intros [H|H]; apply prefix_app_inv in H; destruct H as [t ->]; reflexivity.
Qed.

(** C7: [build_patches] dispatches on the kind.  For [Pod] the result is
    the operations of [spec.containers], all rooted at
    [/spec/containers], followed by those of [spec.initContainers], all
    rooted at [/spec/initContainers] and addressed by indices into the
    initContainers list itself, counted from 0.  For [Deployment] the
    same holds with the two lists and roots under
    [/spec/template/spec], and no path starts with [/spec/containers].
    For every other kind the result is empty, whatever the object. *)
Theorem build_patches_dispatch (obj : json) :
  (forall ops,
      build_patches cfg (JStr "Pod") obj = Ok ops ->
      planned cfg "/spec/containers" "/spec/initContainers"
        (field (field obj "spec") "containers")
        (field (field obj "spec") "initContainers") ops)
  /\ (forall ops,
      build_patches cfg (JStr "Deployment") obj = Ok ops ->
      planned cfg "/spec/template/spec/containers" "/spec/template/spec/initContainers"
        (field (field (field (field obj "spec") "template") "spec") "containers")
        (field (field (field (field obj "spec") "template") "spec") "initContainers") ops
      /\ Forall (fun o => PyStr.startswith (path o) "/spec/containers" = false) ops)
  /\ (forall k : string,
      k <> "Pod" -> k <> "Deployment" -> build_patches cfg (JStr k) obj = Ok []).
Proof.
  split; [|split].
  - intros ops H. now apply build_patches_pod.
  - intros ops H. apply build_patches_deployment in H. split; [exact H|].
    destruct H as (p1 & p2 & i1 & i2 & -> & _ & _ & _ & _ & R1 & R2).
    apply Forall_app. split.
    + eapply Forall_impl; [|exact R1]. intros o Ho.
      apply template_path_not_top_level. now left.
    + eapply Forall_impl; [|exact R2]. intros o Ho.
      apply template_path_not_top_level. now right.
  - intros k H1 H2. apply build_patches_other; congruence.
Qed.

(** The planner returns on objects of the expected shape. *)
Lemma build_patches_pod_total (obj : json) :
  pod_ok obj = true -> exists ops, build_patches cfg (JStr "Pod") obj = Ok ops.
Proof.
  unfold pod_ok. intros H.
  apply andb_prop in H. destruct H as [H Hi].
  apply andb_prop in H. destruct H as [H Hc].
  apply andb_prop in H. destruct H as [Ho Hs].
  unfold build_patches. simpl Py.eq_str. cbv iota.
  rewrite (get_of_dict _ _ Ho). simpl.
  rewrite !(get_or_empty _ _ Hs). simpl.
  rewrite !patches_for_volume_mounts_or.
  destruct (patches_for_volume_mounts_total cfg "/spec/containers" _ Hc) as [p1 ->].
  simpl.
  destruct (patches_for_volume_mounts_total cfg "/spec/initContainers" _ Hi) as [p2 ->].
  simpl. eauto.
Qed.

Lemma build_patches_deployment_total (obj : json) :
  deployment_ok obj = true ->
  exists ops, build_patches cfg (JStr "Deployment") obj = Ok ops.
Proof.
  unfold deployment_ok. intros H.
  apply andb_prop in H. destruct H as [H Hi].
  apply andb_prop in H. destruct H as [H Hc].
  apply andb_prop in H. destruct H as [H Hts].
  apply andb_prop in H. destruct H as [H Ht].
  apply andb_prop in H. destruct H as [Ho Hs].
  unfold build_patches. simpl Py.eq_str. cbv iota.
  rewrite (get_of_dict _ _ Ho). simpl.
  rewrite (get_or_empty _ _ Hs). simpl.
  rewrite (get_or_empty _ _ Ht). simpl.
  rewrite !(get_or_empty _ _ Hts). simpl.
  rewrite !patches_for_volume_mounts_or.
  destruct (patches_for_volume_mounts_total cfg "/spec/template/spec/containers" _ Hc)
    as [p1 ->]. simpl.
  destruct (patches_for_volume_mounts_total cfg "/spec/template/spec/initContainers" _ Hi)
    as [p2 ->]. simpl. eauto.
Qed.

End ResourcePatchPlanner.

Lemma build_patches_dispatch_witness :
  (exists ops,
      build_patches default_config (JStr "Deployment") Sample.deployment = Ok ops
      /\ length ops = 2
      /\ Forall (fun o => PyStr.startswith (path o) "/spec/containers" = false) ops)
  /\ (exists ops,
      build_patches default_config (JStr "Pod") Sample.pod = Ok ops
      /\ Spec.planned default_config "/spec/containers" "/spec/initContainers"
           (Spec.field (Spec.field Sample.pod "spec") "containers")
           (Spec.field (Spec.field Sample.pod "spec") "initContainers") ops)
  /\ build_patches default_config (JStr "ConfigMap") Sample.pod = Ok [].
Proof.
  destruct (build_patches_dispatch default_config Sample.deployment) as (_ & HD & _).
  destruct (build_patches_dispatch default_config Sample.pod) as (HP & _ & HO).
  split; [|split].
  - eexists. split; [reflexivity|]. split; [reflexivity|].
    apply HD. reflexivity.
  - eexists. split; [reflexivity|]. apply HP. reflexivity.
  - apply HO; discriminate.
Defined.

(** C2 (evaluation at the failing input): under the default
    configuration, for the labelled Pod with one container whose mounts are
    [/home], [/data], [/home/x], the planner and the handler compute two
    [replace] operations, for mounts 0 and 2 and none for mount 1; the
    first has value [/blah/home/], but the second has value [/blah/home],
    not [/blah/home/x]. *)
Theorem pod_three_mounts_patches :
  let expected :=
    [ {| op := "replace"; path := "/spec/containers/0/volumeMounts/0/mountPath";
         value := "/blah/home/" |};
      {| op := "replace"; path := "/spec/containers/0/volumeMounts/2/mountPath";
         value := "/blah/home" |} ] in
  build_patches default_config (JStr "Pod") Sample.pod = Ok expected
  /\ computed_ops (mutate default_config (Sample.review_of "Pod" Sample.pod)) = expected
  /\ replace_home_path default_config "/home/x" <> "/blah/home/x".
Proof.
  cbv zeta. split; [reflexivity|]. split; [reflexivity | discriminate].
Qed.

(* ================================================================== *)
(** ** Shape errors *)

(** C9 as stated fails: a field that is present, truthy and of the wrong
    type makes the accessors raise.  With [metadata] a non-empty string
    [has_target_label] raises; with a non-empty string in place of the
    container list [patches_for_volume_mounts] raises; with a number in
    place of [spec] [build_patches] raises. *)
Lemma accessors_raise_on_wrong_type :
  ~ (forall obj, exists b, has_target_label default_config obj = Ok b)
  /\ has_target_label default_config (JObj [("metadata", JStr "x")]) = Raise AttributeError
  /\ patches_for_volume_mounts default_config "/spec/containers" (JStr "x")
     = Raise AttributeError
  /\ build_patches default_config (JStr "Pod") (JObj [("spec", JInt 1)])
     = Raise AttributeError.
Proof.
  split; [|repeat split].
  intros H. destruct (H (JObj [("metadata", JStr "x")])) as [b Hb]. discriminate.
Qed.

(* ================================================================== *)
(** ** Serialisation *)

Section CodecFacts.

Import Codec.

Lemma b64_char_ascii (n : N) : is_ascii_byte (b64_char n) = true.
Proof.
  unfold b64_char. generalize (N.to_nat n) as k. intros k.
  do 64 (destruct k as [|k]; [reflexivity|]).
  reflexivity.
Qed.

Lemma b64encode_ascii_bounded (n : nat) :
  forall bs, length bs <= n -> forallb is_ascii_byte (b64encode bs) = true.
Proof.
  induction n as [|n IH]; intros bs Hlen.
  - destruct bs; [reflexivity | simpl in Hlen; lia].
  - destruct bs as [|a [|b [|c rest]]]; simpl.
    + reflexivity.
    + now rewrite !b64_char_ascii.
    + now rewrite !b64_char_ascii.
    + rewrite !b64_char_ascii. simpl. apply IH. simpl in Hlen. lia.
Qed.

Lemma b64encode_ascii (bs : list byte) : forallb is_ascii_byte (b64encode bs) = true.
Proof. apply (b64encode_ascii_bounded (length bs)). lia. Qed.

(** Decoding ASCII bytes gives the same characters and does not raise. *)
Lemma decode_utf8_ascii (bs : list byte) :
  forallb is_ascii_byte bs = true -> decode_utf8 bs = Ok (string_of_list_byte bs).
Proof.
  induction bs as [|b bs IH]; simpl; intros H; [reflexivity|].
  apply andb_prop in H. destruct H as [Hb Hbs].
  unfold is_ascii_byte in Hb. rewrite Hb, (IH Hbs). reflexivity.
Qed.

Lemma decode_b64encode (bs : list byte) :
  decode_utf8 (b64encode bs) = Ok (string_of_list_byte (b64encode bs)).
Proof. apply decode_utf8_ascii, b64encode_ascii. Qed.

Example b64encode_two_bytes :
  string_of_list_byte (b64encode (encode_utf8 "ab")) = "YWI=".
Proof. reflexivity. Qed.

Example b64encode_no_padding :
  string_of_list_byte (b64encode (encode_utf8 "abc")) = "YWJj".
Proof. reflexivity. Qed.

Example json_dumps_one :
  json_dumps [ {| op := "replace"; path := "/a"; value := "b" |} ]
  = "[{" ++ dumps_str "op" ++ ": " ++ dumps_str "replace" ++ ", "
         ++ dumps_str "path" ++ ": " ++ dumps_str "/a" ++ ", "
         ++ dumps_str "value" ++ ": " ++ dumps_str "b" ++ "}]".
Proof. reflexivity. Qed.

End CodecFacts.

(* ================================================================== *)
(** ** AdmissionHandler *)

Section AdmissionHandler.

Import Spec.

Variable cfg : Config.

Lemma kind_is_target_true (k : json) :
  kind_is_target k = true <-> k = JStr "Pod" \/ k = JStr "Deployment".
Proof.
  unfold kind_is_target. rewrite orb_true_iff, !eq_str_true. reflexivity.
Qed.

(** The two ways [respond] returns: the plain response with no
    operation computed or none found, or the response with the patch of
    the operations [build_patches] found behind the open gate. *)
Lemma respond_cases (l : Locals) (r : Response) (ops : list PatchOp) :
  respond cfg l = Ok (r, ops) ->
  (ops = [] /\ r = plain_response (l_uid l))
  \/ (ops <> []
      /\ kind_is_target (l_kind l) = true
      /\ has_target_label cfg (l_obj l) = Ok true
      /\ build_patches cfg (l_kind l) (l_obj l) = Ok ops
      /\ r = {| uid := l_uid l; allowed := true;
                patch := Some (patch_text ops); patchType := Some "JSONPatch" |}).
Proof.
  unfold respond. intros H.
  destruct (kind_is_target (l_kind l)) eqn:K; [|injection H as <- <-; now left].
  destruct (has_target_label cfg (l_obj l)) as [[|]|] eqn:L; cbn [bind] in H;
    [|injection H as <- <-; now left|discriminate].
  destruct (build_patches cfg (l_kind l) (l_obj l)) as [[|o ops']|] eqn:B;
    cbn [bind] in H; [injection H as <- <-; now left| |discriminate].
  rewrite decode_b64encode in H. cbn [bind] in H. injection H as <- <-.
  right. repeat split; auto. discriminate.
Qed.

(** Behind a closed gate [respond] computes no operation. *)
Lemma respond_closed (l : Locals) :
  kind_is_target (l_kind l) = false \/ has_target_label cfg (l_obj l) <> Ok true ->
  respond cfg l = Ok (plain_response (l_uid l), [])
  \/ exists e, respond cfg l = Raise e.
Proof.
  unfold respond. intros [K|L].
  - rewrite K. now left.
  - destruct (kind_is_target (l_kind l)); [|now left].
    destruct (has_target_label cfg (l_obj l)) as [[|]|e]; simpl.
    + now elim L.
    + now left.
    + right. eauto.
Qed.

(** Behind an open gate, on an object of the expected shape, [respond]
    returns. *)
Lemma respond_total (l : Locals) (ops : list PatchOp) :
  kind_is_target (l_kind l) = true ->
  has_target_label cfg (l_obj l) = Ok true ->
  build_patches cfg (l_kind l) (l_obj l) = Ok ops ->
  exists r, respond cfg l = Ok (r, ops).
Proof.
  intros K L B. unfold respond. rewrite K, L. cbn [bind]. rewrite B. cbn [bind].
  destruct ops; [eauto|]. rewrite decode_b64encode. cbn [bind]. eauto.
Qed.


Lemma mutate_raise (rq : Request) (e : exn) :
  mutate_try cfg rq = Raise e ->
  mutate cfg rq = {| review := admission_review (plain_response (fail_uid rq));
                     computed_ops := [] |}.
Proof. intros H. unfold mutate. now rewrite H. Qed.

Lemma mutate_try_inv (rq : Request) (x : Response * list PatchOp) :
  mutate_try cfg rq = Ok x ->
  exists l, read_request rq = Ok l /\ respond cfg l = Ok x.
Proof.
  unfold mutate_try. destruct (read_request rq) as [l|]; [|discriminate].
  simpl. eauto.
Qed.


(** C6: when the object of the request does not carry the configured
    label, or the kind of the request is neither [Pod] nor [Deployment],
    the handler answers [allowed: true] without [patch] and [patchType]
    and computes no operation, whatever the object contains. *)
Theorem mutate_gate_closed (rq : Request) (l : Locals) :
  read_request rq = Ok l ->
  ~ carries_label cfg (l_obj l)
  \/ (l_kind l <> JStr "Pod" /\ l_kind l <> JStr "Deployment") ->
  let out := mutate cfg rq in
  allowed (response (review out)) = true
  /\ patch (response (review out)) = None
  /\ patchType (response (review out)) = None
  /\ computed_ops out = [].
Proof.
  intros Hl Hgate. cbv zeta.
  assert (C : kind_is_target (l_kind l) = false
              \/ has_target_label cfg (l_obj l) <> Ok true).
  { destruct Hgate as [Hn|[H1 H2]].
    - right. intros H. apply Hn. now apply has_target_label_true.
    - left. destruct (kind_is_target (l_kind l)) eqn:K; [|reflexivity].
      apply kind_is_target_true in K. tauto. }
  apply respond_closed in C.
  unfold mutate, mutate_try. rewrite Hl. simpl.
  destruct C as [->|[e ->]]; simpl; auto.
Qed.

(** C8: the handler never answers [allowed: false]; and whenever a step
    of the [try] block raises, as it does when the body is not JSON or is
    not a mapping, the answer is [allowed: true] without [patch] and
    [patchType], with the uid read again from the body: the [uid] of the
    body's [request] when the body is a mapping with a [request] mapping
    that has one, [None] when the body is not JSON. *)
Theorem mutate_fail_open (rq : Request) :
  allowed (response (review (mutate cfg rq))) = true
  /\ (forall e,
        mutate_try cfg rq = Raise e ->
        response (review (mutate cfg rq)) = plain_response (fail_uid rq))
  /\ (payload rq = None ->
        mutate_try cfg rq = Raise BadRequest /\ fail_uid rq = JNull)
  /\ (forall body,
        payload rq = Some body -> Py.isinstance_dict body = false ->
        mutate_try cfg rq = Raise ValueError)
  /\ (forall fields req u,
        payload rq = Some (JObj fields) ->
        Py.lookup "request" fields = Some (JObj req) ->
        Py.lookup "uid" req = Some u ->
        fail_uid rq = u).
Proof.
  repeat split.
  - unfold mutate. destruct (mutate_try cfg rq) as [[r ops]|e] eqn:H; [|reflexivity].
    simpl. apply mutate_try_inv in H. destruct H as (l & _ & H).
    apply respond_cases in H. destruct H as [[_ ->]|(_ & _ & _ & _ & ->)]; reflexivity.
  - intros e H. now rewrite (mutate_raise _ _ H).
  - unfold mutate_try, read_request, get_json. now rewrite H.
  - unfold fail_uid, get_json. now rewrite H.
  - intros body Hb Hd. unfold mutate_try, read_request, get_json.
    rewrite Hb. simpl. now rewrite Hd.
  - intros fields req u Hb Hr Hu. unfold fail_uid, get_json. rewrite Hb. simpl.
    assert (Tf : Py.or_ (JObj fields) Py.empty_dict = JObj fields).
    { unfold Py.or_. simpl. destruct fields; [discriminate | reflexivity]. }
    rewrite Tf. simpl. rewrite Hr. simpl.
    assert (Tr : Py.or_ (JObj req) Py.empty_dict = JObj req).
    { unfold Py.or_. simpl. destruct req; [discriminate | reflexivity]. }
    rewrite Tr. simpl. now rewrite Hu.
Qed.

(** C10: for a Deployment whose own top-level [metadata.labels] does not
    carry the configured label, the handler computes no operation and
    answers without [patch] and [patchType]; and the label test has the
    same outcome whatever [spec], hence whatever pod template with
    whatever labels, the object is given. *)
Theorem deployment_gate_top_level (rq : Request) (l : Locals) :
  read_request rq = Ok l ->
  l_kind l = JStr "Deployment" ->
  ~ carries_label cfg (l_obj l) ->
  (computed_ops (mutate cfg rq) = []
   /\ patch (response (review (mutate cfg rq))) = None
   /\ patchType (response (review (mutate cfg rq))) = None)
  /\ (forall fields spec,
        l_obj l = JObj fields ->
        has_target_label cfg (JObj (("spec", spec) :: fields))
        = has_target_label cfg (l_obj l)).
Proof.
  intros Hl Hk Hn. split.
  - assert (C : has_target_label cfg (l_obj l) <> Ok true).
    { intros H. apply Hn. now apply has_target_label_true. }
    assert (C' : kind_is_target (l_kind l) = false
                 \/ has_target_label cfg (l_obj l) <> Ok true) by now right.
    apply respond_closed in C'.
    unfold mutate, mutate_try. rewrite Hl. simpl.
    destruct C' as [->|[e ->]]; simpl; auto.
  - intros fields spec ->. apply has_target_label_metadata_only. reflexivity.
Qed.

End AdmissionHandler.

(* ================================================================== *)
(** ** The theorems at sample requests *)


Lemma mutate_gate_closed_witness :
  let rq := Sample.review_of "Pod" Sample.unlabelled_pod in
  let l := {| l_uid := JStr "u-1"; l_kind := JStr "Pod"; l_operation := PyStr.code_points "CREATE";
              l_obj := Sample.unlabelled_pod |} in
  read_request rq = Ok l
  /\ ~ Spec.carries_label default_config (l_obj l)
  /\ patch (response (review (mutate default_config rq))) = None
  /\ computed_ops (mutate default_config rq) = [].
Proof.
  cbv zeta.
  assert (R : read_request (Sample.review_of "Pod" Sample.unlabelled_pod)
              = Ok {| l_uid := JStr "u-1"; l_kind := JStr "Pod"; l_operation := PyStr.code_points "CREATE";
                      l_obj := Sample.unlabelled_pod |}) by reflexivity.
  assert (N : ~ Spec.carries_label default_config Sample.unlabelled_pod).
  { intros (fields & meta & labels & Ho & Hm & Hl & _).
    injection Ho as <-. simpl in Hm. injection Hm as <-. discriminate. }
  split; [exact R|]. split; [exact N|].
  destruct (mutate_gate_closed default_config _ _ R (or_introl N)) as (_ & P & _ & C).
  split; [exact P | exact C].
Defined.

Lemma mutate_fail_open_witness :
  let rq := {| payload := Some (JArr [JInt 1]) |} in
  mutate_try default_config rq = Raise ValueError
  /\ response (review (mutate default_config rq)) = Spec.plain_response JNull
  /\ allowed (response (review (mutate default_config rq))) = true
  /\ fail_uid (Sample.review_of "Pod" Sample.pod) = JStr "u-1".
Proof.
  cbv zeta.
  destruct (mutate_fail_open default_config {| payload := Some (JArr [JInt 1]) |})
    as (A & F & _ & V & _).
  assert (E : mutate_try default_config {| payload := Some (JArr [JInt 1]) |}
              = Raise ValueError).
  { apply (V (JArr [JInt 1])); reflexivity. }
  split; [exact E|]. split; [exact (F _ E)|]. split; [exact A|].
  destruct (mutate_fail_open default_config (Sample.review_of "Pod" Sample.pod))
    as (_ & _ & _ & _ & U).
  eapply U; reflexivity.
Defined.

Lemma deployment_gate_top_level_witness :
  let rq := Sample.review_of "Deployment" Sample.template_labelled_deployment in
  let l := {| l_uid := JStr "u-1"; l_kind := JStr "Deployment"; l_operation := PyStr.code_points "CREATE";
              l_obj := Sample.template_labelled_deployment |} in
  read_request rq = Ok l
  /\ l_kind l = JStr "Deployment"
  /\ ~ Spec.carries_label default_config (l_obj l)
  /\ Spec.carries_label default_config
       (Spec.field (Spec.field (l_obj l) "spec") "template")
  /\ computed_ops (mutate default_config rq) = []
  /\ patch (response (review (mutate default_config rq))) = None.
Proof.
  cbv zeta.
  assert (R : read_request (Sample.review_of "Deployment" Sample.template_labelled_deployment)
              = Ok {| l_uid := JStr "u-1"; l_kind := JStr "Deployment";
                      l_operation := PyStr.code_points "CREATE";
                      l_obj := Sample.template_labelled_deployment |}) by reflexivity.
  assert (N : ~ Spec.carries_label default_config Sample.template_labelled_deployment).
  { intros (fields & meta & labels & Ho & Hm & Hl & _).
    injection Ho as <-. simpl in Hm. injection Hm as <-. discriminate. }
  split; [exact R|]. split; [reflexivity|]. split; [exact N|]. split.
  - eexists _, _, _. repeat split.
  - destruct (deployment_gate_top_level default_config _ _ R eq_refl N) as ((C & P & _) & _).
    split; [exact C | exact P].
Defined.

(* ================================================================== *)
(** * Further properties of the code *)

(** ** PathRewriter: when a descendant is rewritten as intended *)

Section RewriterMore.

Import PyStr Spec.

Variable cfg : Config.

(** X1: a descendant [S/T] of the source prefix is rewritten to the
    intended [D.rstrip("/")/T] exactly when the source prefix consists of
    separators only; for every other source prefix the result differs, for
    every [T]. *)
Theorem replace_home_path_descendant_correct_iff (T : string) :
  replace_home_path cfg (REWRITE_FROM cfg ++ "/" ++ T)
  = rstrip_slash (REWRITE_TO cfg) ++ "/" ++ T
  <-> rstrip_slash (REWRITE_FROM cfg) = EmptyString.
Proof.
  split.
  - intros H.
    destruct (string_dec (rstrip_slash (REWRITE_FROM cfg)) EmptyString) as [E|N];
      [exact E|].
    exfalso. revert H. now apply replace_home_path_descendant_wrong.
  - intros E. rewrite replace_home_path_descendant, E. reflexivity.
Qed.

(** An eligible path is rewritten to a path that starts with the
    destination prefix without its trailing separators. *)
Lemma replace_home_path_under_destination (p : string) :
  eligible_path cfg p ->
  startswith (replace_home_path cfg p) (rstrip_slash (REWRITE_TO cfg)) = true.
Proof.
  intros E. unfold replace_home_path.
  destruct (String.eqb_spec p (REWRITE_FROM cfg)) as [_|N].
  - apply prefix_refl_app.
  - destruct E as [E|E]; [now elim N|].
    rewrite E. apply prefix_refl_app.
Qed.

End RewriterMore.

(* ================================================================== *)
(** ** ContainerPatchBuilder: the loops as a comprehension *)

Section BuilderExact.

Import Spec Expect.

Variable cfg : Config.
Variable base : string.

Lemma visit_mount_exact (i j : nat) (mount : json) (acc out : list PatchOp) :
  visit_mount cfg base i j mount acc = Ok out ->
  Py.isinstance_dict mount = true /\ out = (acc ++ mount_ops cfg base i j mount)%list.
Proof.
  unfold visit_mount, mount_ops. intros H.
  destruct (Py.get mount "mountPath") as [mp|] eqn:E; [|discriminate].
  apply get_ok_inv in E. destruct E as (fields & -> & ->).
  split; [reflexivity|]. cbn [bind] in H.
  destruct (field (JObj fields) "mountPath");
    try (injection H as <-; now rewrite app_nil_r).
  destruct (String.eqb s (REWRITE_FROM cfg)
            || PyStr.startswith s (PyStr.rstrip_slash (REWRITE_FROM cfg) ++ "/"));
    cbn [andb]; [|injection H as <-; now rewrite app_nil_r].
  destruct (negb (String.eqb (replace_home_path cfg s) s));
    injection H as <-; [reflexivity | now rewrite app_nil_r].
Qed.

Lemma mounts_loop_exact (i : nat) (mounts : list json) :
  forall (j0 : nat) (acc out : list PatchOp),
    mounts_loop cfg base i j0 mounts acc = Ok out ->
    forallb Py.isinstance_dict mounts = true
    /\ out = (acc ++ flat_map (fun jm => mount_ops cfg base i (fst jm) (snd jm))
                              (indexed_from j0 mounts))%list.
Proof.
  unfold indexed_from.
  induction mounts as [|m ms IH]; intros j0 acc out H; simpl in H.
  - injection H as <-. split; [reflexivity | now rewrite app_nil_r].
  - destruct (visit_mount cfg base i j0 m acc) as [acc'|] eqn:E; [|discriminate].
    cbn [bind] in H. apply visit_mount_exact in E. destruct E as [Hd ->].
    apply IH in H. destruct H as [Hds ->].
    split; [simpl; now rewrite Hd, Hds|].
    simpl. now rewrite <- app_assoc.
Qed.

(** What a container that the loop gets through is iterated over. *)
Lemma container_visit_inv (c vm : json) (mounts : list json) :
  Py.get c "volumeMounts" = Ok vm ->
  Py.iter (Py.or_ vm Py.empty_list) = Ok mounts ->
  forallb Py.isinstance_dict mounts = true ->
  container_ok c = true /\ mounts_of c = mounts.
Proof.
  intros Hg Hi Hd. apply get_ok_inv in Hg. destruct Hg as (fields & -> & ->).
  unfold container_ok, mounts_of, mounts_ok, falsy. rewrite Hi.
  split; [|reflexivity]. simpl Py.isinstance_dict. cbn [andb].
  set (vm := field (JObj fields) "volumeMounts") in *.
  unfold Py.or_ in Hi. destruct (Py.truthy vm) eqn:T; [|reflexivity]. cbn [negb orb].
  destruct vm; try discriminate.
  - (* a non-empty string is iterated by character *)
    simpl in T. destruct s as [|c s]; [discriminate|].
    simpl in Hi. injection Hi as <-. discriminate.
  - simpl in Hi. injection Hi as <-. exact Hd.
  - (* a non-empty dict is iterated by key *)
    simpl in T. destruct fields0 as [|[k v] rest]; [discriminate|].
    simpl in Hi. injection Hi as <-. discriminate.
Qed.

Lemma containers_loop_exact (containers : list json) :
  forall (i0 : nat) (acc out : list PatchOp),
    containers_loop cfg base i0 containers acc = Ok out ->
    forallb container_ok containers = true
    /\ out = (acc ++ flat_map (fun ic => container_ops cfg base (fst ic) (snd ic))
                              (indexed_from i0 containers))%list.
Proof.
  unfold indexed_from.
  induction containers as [|c cs IH]; intros i0 acc out H; simpl in H.
  - injection H as <-. split; [reflexivity | now rewrite app_nil_r].
  - destruct (Py.get c "volumeMounts") as [vm|] eqn:E1; [|discriminate]. cbn [bind] in H.
    destruct (Py.iter (Py.or_ vm Py.empty_list)) as [mounts|] eqn:E2; [|discriminate].
    cbn [bind] in H.
    destruct (mounts_loop cfg base i0 0 mounts acc) as [acc'|] eqn:E3; [|discriminate].
    cbn [bind] in H.
    apply mounts_loop_exact in E3. destruct E3 as [Hd ->].
    destruct (container_visit_inv _ _ _ E1 E2 Hd) as [Hc Hm].
    apply IH in H. destruct H as [Hcs ->].
    split; [simpl; now rewrite Hc, Hcs|].
    simpl. unfold container_ops at 2. rewrite Hm. now rewrite <- !app_assoc.
Qed.

Lemma iter_containers_inv (containers : json) (items : list json) :
  Py.iter (Py.or_ containers Py.empty_list) = Ok items ->
  forallb container_ok items = true ->
  containers_ok containers = true.
Proof.
  unfold containers_ok, falsy, Py.or_. intros Hi Hc.
  destruct (Py.truthy containers) eqn:T; [|reflexivity]. cbn [negb orb].
  destruct containers; try discriminate.
  - simpl in T. destruct s as [|c s]; [discriminate|].
    simpl in Hi. injection Hi as <-. discriminate.
  - simpl in Hi. injection Hi as <-. exact Hc.
  - simpl in T. destruct fields as [|[k v] rest]; [discriminate|].
    simpl in Hi. injection Hi as <-. discriminate.
Qed.

(** X2: whenever [patches_for_volume_mounts] returns, its result is the
    comprehension over the containers in order and, within a container,
    its mounts in order, both numbered from 0: one [replace] for each
    mount whose [mountPath] is a string that is the source prefix or lies
    under it and is changed by the rewriting. *)
Theorem patches_for_volume_mounts_exact (containers : json) (ops : list PatchOp) :
  patches_for_volume_mounts cfg base containers = Ok ops ->
  exists items,
    Py.iter (Py.or_ containers Py.empty_list) = Ok items
    /\ ops = expected_ops cfg base items.
Proof.
  unfold patches_for_volume_mounts. intros H.
  destruct (Py.iter (Py.or_ containers Py.empty_list)) as [items|] eqn:E; [|discriminate].
  cbn [bind] in H. apply containers_loop_exact in H. destruct H as [_ ->].
  exists items. split; reflexivity.
Qed.

Lemma patches_for_volume_mounts_shape (containers : json) (ops : list PatchOp) :
  patches_for_volume_mounts cfg base containers = Ok ops ->
  containers_ok containers = true.
Proof.
  unfold patches_for_volume_mounts. intros H.
  destruct (Py.iter (Py.or_ containers Py.empty_list)) as [items|] eqn:E; [|discriminate].
  cbn [bind] in H. apply containers_loop_exact in H. destruct H as [Hc _].
  eapply iter_containers_inv; eauto.
Qed.

(** X3: [patches_for_volume_mounts] returns exactly on the expected
    shapes: the container list is absent, falsy or a list of mappings, and
    each [volumeMounts] is absent, falsy or a list of mappings.  On every
    other input an exception is raised. *)
Theorem patches_for_volume_mounts_returns_iff (containers : json) :
  (exists ops, patches_for_volume_mounts cfg base containers = Ok ops)
  <-> containers_ok containers = true.
Proof.
  split.
  - intros [ops H]. eapply patches_for_volume_mounts_shape; eauto.
  - apply patches_for_volume_mounts_total.
Qed.

End BuilderExact.

(* ================================================================== *)
(** ** LabelMatcher: when it returns, and what it decides *)

Section LabelMore.

Import Spec Expect.

Variable cfg : Config.

Lemma has_target_label_shape (obj : json) (b : bool) :
  has_target_label cfg obj = Ok b -> labels_ok obj = true.
Proof.
  intros H. unfold has_target_label in H.
  destruct (Py.get obj "metadata") as [md|] eqn:E1; [|discriminate]. cbn [bind] in H.
  apply get_ok_inv in E1. destruct E1 as (fields & -> & ->).
  set (md := field (JObj fields) "metadata") in *.
  destruct (Py.get (Py.or_ md Py.empty_dict) "labels") as [lb|] eqn:E2; [|discriminate].
  cbn [bind] in H. apply get_or_empty_inv in E2. destruct E2 as [-> Hmd].
  destruct (Py.get (Py.or_ (field md "labels") Py.empty_dict) (LABEL_KEY cfg)) as [v|] eqn:E3;
    [|discriminate].
  apply get_or_empty_inv in E3. destruct E3 as [_ Hlb].
  unfold labels_ok. fold md. now rewrite Hmd, Hlb.
Qed.

(** X4: [has_target_label] returns exactly when the object is a mapping
    whose [metadata] is absent, falsy or a mapping, and whose
    [metadata.labels] is absent, falsy or a mapping; on every other object
    it raises. *)
Theorem has_target_label_returns_iff (obj : json) :
  (exists b, has_target_label cfg obj = Ok b) <-> labels_ok obj = true.
Proof.
  split; [|apply has_target_label_total].
  intros [b H]. eapply has_target_label_shape; eauto.
Qed.

(** X5: on such an object [has_target_label] decides whether
    [metadata.labels] maps the configured key to the configured value as a
    string: it answers [True] when it does and [False] when the key is
    missing or bound to anything else, a non-string included. *)
Theorem has_target_label_decides (obj : json) :
  labels_ok obj = true ->
  (has_target_label cfg obj = Ok true /\ carries_label cfg obj)
  \/ (has_target_label cfg obj = Ok false /\ ~ carries_label cfg obj).
Proof.
  intros H. destruct (has_target_label_total cfg obj H) as [[|] Hb].
  - left. split; [exact Hb | now apply has_target_label_true].
  - right. split; [exact Hb|]. intros C.
    apply has_target_label_true in C. congruence.
Qed.

End LabelMore.

Lemma has_target_label_decides_witness :
  let bool_label := JObj [("metadata", JObj [("labels", JObj [("nfs-home", JBool true)])])] in
  Spec.labels_ok bool_label = true
  /\ has_target_label default_config bool_label = Ok false
  /\ ~ Spec.carries_label default_config bool_label.
Proof.
  cbv zeta. split; [reflexivity|].
  destruct (has_target_label_decides default_config
              (JObj [("metadata", JObj [("labels", JObj [("nfs-home", JBool true)])])])
              eq_refl) as [[H _]|[H N]].
  - discriminate H.
  - split; [exact H | exact N].
Defined.

(* ================================================================== *)
(** ** ResourcePatchPlanner: when it returns, and what it emits *)

Section PlannerMore.

Import Spec Expect.

Variable cfg : Config.

Lemma two_passes_ok (base1 base2 : string) (cs ics : json) (ops : list PatchOp) :
  (p1 <- patches_for_volume_mounts cfg base1 (Py.or_ cs Py.empty_list) ;;
   p2 <- patches_for_volume_mounts cfg base2 (Py.or_ ics Py.empty_list) ;;
   Ok (([] ++ p1) ++ p2)%list) = Ok ops ->
  containers_ok cs = true /\ containers_ok ics = true.
Proof.
  rewrite !patches_for_volume_mounts_or. intros H.
  destruct (patches_for_volume_mounts cfg base1 cs) as [p1|] eqn:E1; [|discriminate].
  cbn [bind] in H.
  destruct (patches_for_volume_mounts cfg base2 ics) as [p2|] eqn:E2; [|discriminate].
  split; eapply patches_for_volume_mounts_shape; eauto.
Qed.

Lemma build_patches_pod_ok (obj : json) (ops : list PatchOp) :
  build_patches cfg (JStr "Pod") obj = Ok ops -> pod_ok obj = true.
Proof.
  unfold build_patches. simpl Py.eq_str. cbv iota. intros H.
  destruct (Py.get obj "spec") as [spec0|] eqn:E0; [|discriminate]. cbn [bind] in H.
  apply get_ok_inv in E0. destruct E0 as (fields & -> & ->).
  set (spec0 := field (JObj fields) "spec") in *.
  destruct (Py.get (Py.or_ spec0 Py.empty_dict) "containers") as [c0|] eqn:E1;
    [|discriminate]. cbn [bind] in H.
  destruct (Py.get (Py.or_ spec0 Py.empty_dict) "initContainers") as [i0|] eqn:E2;
    [|discriminate]. cbn [bind] in H.
  apply get_or_empty_inv in E1. destruct E1 as [-> Hs].
  apply get_or_empty_inv in E2. destruct E2 as [-> _].
  apply two_passes_ok in H. destruct H as [Hc Hi].
  unfold pod_ok. fold spec0. now rewrite Hs, Hc, Hi.
Qed.

Lemma build_patches_deployment_ok (obj : json) (ops : list PatchOp) :
  build_patches cfg (JStr "Deployment") obj = Ok ops -> deployment_ok obj = true.
Proof.
  unfold build_patches. simpl Py.eq_str. cbv iota. intros H.
  destruct (Py.get obj "spec") as [spec0|] eqn:E0; [|discriminate]. cbn [bind] in H.
  apply get_ok_inv in E0. destruct E0 as (fields & -> & ->).
  set (spec0 := field (JObj fields) "spec") in *.
  destruct (Py.get (Py.or_ spec0 Py.empty_dict) "template") as [t0|] eqn:Et;
    [|discriminate]. cbn [bind] in H.
  apply get_or_empty_inv in Et. destruct Et as [-> Hs].
  set (t0 := field spec0 "template") in *.
  destruct (Py.get (Py.or_ t0 Py.empty_dict) "spec") as [ts0|] eqn:Es;
    [|discriminate]. cbn [bind] in H.
  apply get_or_empty_inv in Es. destruct Es as [-> Ht].
  set (ts0 := field t0 "spec") in *.
  destruct (Py.get (Py.or_ ts0 Py.empty_dict) "containers") as [c0|] eqn:E1;
    [|discriminate]. cbn [bind] in H.
  destruct (Py.get (Py.or_ ts0 Py.empty_dict) "initContainers") as [i0|] eqn:E2;
    [|discriminate]. cbn [bind] in H.
  apply get_or_empty_inv in E1. destruct E1 as [-> Hts].
  apply get_or_empty_inv in E2. destruct E2 as [-> _].
  apply two_passes_ok in H. destruct H as [Hc Hi].
  unfold deployment_ok. cbv zeta. fold spec0. fold t0. fold ts0.
  now rewrite Hs, Ht, Hts, Hc, Hi.
Qed.

Lemma build_patches_shape (kind obj : json) (ops : list PatchOp) :
  build_patches cfg kind obj = Ok ops -> object_ok kind obj = true.
Proof.
  unfold object_ok. intros H.
  destruct (Py.eq_str kind "Pod") eqn:KP.
  { apply eq_str_true in KP. subst kind. eapply build_patches_pod_ok; eauto. }
  destruct (Py.eq_str kind "Deployment") eqn:KD; [|reflexivity].
  apply eq_str_true in KD. subst kind. eapply build_patches_deployment_ok; eauto.
Qed.

Lemma build_patches_total (kind obj : json) :
  object_ok kind obj = true -> exists ops, build_patches cfg kind obj = Ok ops.
Proof.
  unfold object_ok.
  destruct (Py.eq_str kind "Pod") eqn:KP.
  { apply eq_str_true in KP. subst kind. apply build_patches_pod_total. }
  destruct (Py.eq_str kind "Deployment") eqn:KD.
  { apply eq_str_true in KD. subst kind. apply build_patches_deployment_total. }
  intros _. exists []. unfold build_patches. now rewrite KP, KD.
Qed.

(** X6: [build_patches] returns exactly on the shapes it expects for the
    kind: for [Pod], a mapping whose [spec] is absent, falsy or a mapping
    with well-shaped [containers] and [initContainers]; for [Deployment]
    the same along [spec.template.spec]; for any other kind, every object.
    On every other input it raises. *)
Theorem build_patches_returns_iff (kind obj : json) :
  (exists ops, build_patches cfg kind obj = Ok ops) <-> object_ok kind obj = true.
Proof.
  split.
  - intros [ops H]. eapply build_patches_shape; eauto.
  - apply build_patches_total.
Qed.

(** Every operation of a planned sequence is one of a mount. *)
Lemma planned_emitted (base1 base2 : string) (cs ics : json) (ops : list PatchOp) :
  planned cfg base1 base2 cs ics ops ->
  Forall (fun o => exists base items, emitted_by cfg base items o) ops.
Proof.
  intros (p1 & p2 & i1 & i2 & -> & _ & _ & S1 & S2 & _ & _).
  apply Forall_app. split.
  - eapply Forall_impl; [|exact S1]. intros o Ho. eauto.
  - eapply Forall_impl; [|exact S2]. intros o Ho. eauto.
Qed.

(** X7: whatever the kind and the object, every operation [build_patches]
    returns is a [replace] (never an [add], [remove] or [test]) of a
    [mountPath] pointer, by the rewriting of a string [p] that is the
    source prefix or lies under it; its value differs from [p] and starts
    with the destination prefix without its trailing separators. *)
Theorem build_patches_ops_shape (kind obj : json) (ops : list PatchOp) :
  build_patches cfg kind obj = Ok ops ->
  Forall (fun o =>
            op o = "replace"
            /\ (exists base i j, path o = mount_pointer base i j)
            /\ PyStr.startswith (value o) (PyStr.rstrip_slash (REWRITE_TO cfg)) = true
            /\ exists p, eligible_path cfg p
                         /\ value o = replace_home_path cfg p
                         /\ value o <> p) ops.
Proof.
  intros H.
  assert (E : Forall (fun o => exists base items, emitted_by cfg base items o) ops).
  { unfold build_patches in H.
    destruct (Py.eq_str kind "Pod") eqn:KP.
    { apply eq_str_true in KP. subst kind.
      eapply planned_emitted. apply build_patches_pod.
      unfold build_patches. simpl Py.eq_str. cbv iota. exact H. }
    destruct (Py.eq_str kind "Deployment") eqn:KD.
    { apply eq_str_true in KD. subst kind.
      eapply planned_emitted. apply build_patches_deployment.
      unfold build_patches. simpl Py.eq_str. cbv iota. exact H. }
    injection H as <-. constructor. }
  eapply Forall_impl; [|exact E].
  intros o (base & items & i & c & vm & ms & j & m & _ & _ & _ & _ & p & _ & El & Hne & ->).
  simpl. repeat split.
  - eauto.
  - now apply replace_home_path_under_destination.
  - exists p. auto.
Qed.

End PlannerMore.

Lemma build_patches_ops_shape_witness :
  exists ops,
    build_patches default_config (JStr "Deployment") Sample.deployment = Ok ops
    /\ length ops = 2
    /\ Forall (fun o => op o = "replace"
                        /\ PyStr.startswith (value o) "/blah/home" = true) ops.
Proof.
  eexists. split; [reflexivity|]. split; [reflexivity|].
  eapply Forall_impl;
    [|apply (build_patches_ops_shape default_config (JStr "Deployment") Sample.deployment);
      reflexivity].
  intros o (H1 & _ & H2 & _). split; [exact H1 | exact H2].
Defined.

(* ================================================================== *)
(** ** AdmissionHandler: the envelope, the uid, and when it fails open *)

Section HandlerMore.

Import Spec Expect.

Variable cfg : Config.

Lemma or_dict_self (v : json) :
  Py.isinstance_dict v = true -> Py.or_ v Py.empty_dict = v.
Proof.
  destruct v; try discriminate. intros _. unfold Py.or_. simpl.
  destruct fields; reflexivity.
Qed.

Lemma upper_or_ok (o : json) :
  str_or_falsy o = true ->
  Py.upper (Py.or_ o (JStr EmptyString))
  = Ok match o with JStr s => PyStr.upper s | _ => [] end.
Proof.
  unfold str_or_falsy, falsy, Py.or_. intros H.
  destruct (Py.truthy o) eqn:T; simpl in H.
  - destruct o; try discriminate. reflexivity.
  - destruct o; try reflexivity.
    simpl in T. destruct s; [reflexivity | discriminate].
Qed.

Lemma upper_or_inv (o : json) (s : list N) :
  Py.upper (Py.or_ o (JStr EmptyString)) = Ok s -> str_or_falsy o = true.
Proof.
  unfold str_or_falsy, falsy, Py.or_.
  destruct (Py.truthy o) eqn:T; [|reflexivity].
  destruct o; try discriminate. reflexivity.
Qed.

Lemma read_request_ok (rq : Request) (body : json) :
  payload rq = Some body -> request_ok body = true ->
  read_request rq = Ok (locals_of body).
Proof.
  intros Hp H. unfold request_ok in H.
  apply andb_prop in H. destruct H as [H Ho].
  apply andb_prop in H. destruct H as [H Hk].
  apply andb_prop in H. destruct H as [Hb Hr].
  unfold read_request, get_json. rewrite Hp. cbn [bind]. rewrite Hb. cbn [negb].
  rewrite (or_dict_self _ Hb), (get_of_dict _ _ Hb). cbn [bind].
  rewrite !(get_or_empty _ _ Hr). cbn [bind].
  rewrite (get_or_empty _ _ Hk). cbn [bind].
  rewrite (upper_or_ok _ Ho). cbn [bind]. reflexivity.
Qed.

Lemma read_request_inv (rq : Request) (body : json) (l : Locals) :
  payload rq = Some body -> read_request rq = Ok l ->
  request_ok body = true /\ l = locals_of body.
Proof.
  intros Hp H.
  assert (R : request_ok body = true).
  { unfold read_request, get_json in H. rewrite Hp in H. cbn [bind] in H.
    destruct (Py.isinstance_dict body) eqn:Hb; [|discriminate]. cbn [negb] in H.
    rewrite (or_dict_self _ Hb), (get_of_dict _ _ Hb) in H. cbn [bind] in H.
    set (req0 := field body "request") in *.
    destruct (Py.get (Py.or_ req0 Py.empty_dict) "uid") as [u|] eqn:E1; [|discriminate].
    apply get_or_empty_inv in E1. destruct E1 as [_ Hr].
    rewrite !(get_or_empty _ _ Hr) in H. cbn [bind] in H.
    destruct (Py.get (Py.or_ (field req0 "kind") Py.empty_dict) "kind") as [k|] eqn:E2;
      [|discriminate].
    apply get_or_empty_inv in E2. destruct E2 as [_ Hk]. cbn [bind] in H.
    destruct (Py.upper (Py.or_ (field req0 "operation") (JStr EmptyString))) as [s|] eqn:E3;
      [|discriminate].
    apply upper_or_inv in E3.
    unfold request_ok. fold req0. now rewrite Hb, Hr, Hk, E3. }
  split; [exact R|].
  rewrite (read_request_ok _ _ Hp R) in H. now injection H.
Qed.

(** X8: on a body that decodes, lines 155-164 return exactly when the
    body is a mapping, its [request] and [request.kind] are absent, falsy
    or mappings, and [request.operation] is absent, falsy or a string,
    although the operation is only logged; they then bind the uid, the
    kind, the upper-cased operation and the object (an empty mapping when
    absent or falsy) found there.  On every other body they raise. *)
Theorem read_request_returns_iff (rq : Request) (body : json) (l : Locals) :
  payload rq = Some body ->
  (read_request rq = Ok l <-> request_ok body = true /\ l = locals_of body).
Proof.
  intros Hp. split.
  - now apply read_request_inv.
  - intros [R ->]. now apply read_request_ok.
Qed.

Lemma respond_uid (l : Locals) (r : Response) (ops : list PatchOp) :
  respond cfg l = Ok (r, ops) -> uid r = l_uid l.
Proof.
  intros H. apply respond_cases in H.
  destruct H as [[_ ->]|(_ & _ & _ & _ & ->)]; reflexivity.
Qed.

(** X9: when the body is a mapping whose [request] is absent, falsy or a
    mapping, the response carries the [uid] of the request ([None] when
    there is none), whether the request is processed or the handler fails
    open on a later step. *)
Theorem mutate_echoes_uid (rq : Request) (body : json) :
  payload rq = Some body ->
  Py.isinstance_dict body = true ->
  dict_or_falsy (field body "request") = true ->
  uid (response (review (mutate cfg rq))) = field (field body "request") "uid".
Proof.
  intros Hp Hb Hr. unfold mutate.
  destruct (mutate_try cfg rq) as [[r ops]|e] eqn:H; simpl.
  - apply mutate_try_inv in H. destruct H as (l & Hl & H).
    apply respond_uid in H. rewrite H.
    apply (read_request_inv _ _ _ Hp) in Hl. destruct Hl as [_ ->]. reflexivity.
  - unfold fail_uid, get_json. rewrite Hp. cbn [bind].
    rewrite (or_dict_self _ Hb), (get_of_dict _ _ Hb). cbn [bind].
    now rewrite (get_or_empty _ _ Hr).
Qed.

End HandlerMore.

Lemma read_request_returns_iff_witness :
  let body := JObj [("request", JObj [("uid", JStr "u-2"); ("operation", JStr "update")])] in
  payload {| payload := Some body |} = Some body
  /\ Expect.request_ok body = true
  /\ read_request {| payload := Some body |}
     = Ok {| l_uid := JStr "u-2"; l_kind := JNull; l_operation := PyStr.code_points "UPDATE";
             l_obj := JObj [] |}.
Proof.
  cbv zeta. split; [reflexivity|]. split; [reflexivity|].
  apply (read_request_returns_iff
           {| payload := Some (JObj [("request", JObj [("uid", JStr "u-2");
                                                      ("operation", JStr "update")])]) |}
           _ _ eq_refl).
  split; reflexivity.
Defined.

Lemma mutate_echoes_uid_witness :
  let body := JObj [("request", JObj [("uid", JStr "u-2"); ("operation", JInt 7)])] in
  Py.isinstance_dict body = true
  /\ Spec.dict_or_falsy (Spec.field body "request") = true
  /\ mutate_try default_config {| payload := Some body |} = Raise AttributeError
  /\ uid (response (review (mutate default_config {| payload := Some body |}))) = JStr "u-2".
Proof.
  cbv zeta. split; [reflexivity|]. split; [reflexivity|]. split; [reflexivity|].
  exact (mutate_echoes_uid default_config
           {| payload := Some (JObj [("request", JObj [("uid", JStr "u-2");
                                                      ("operation", JInt 7)])]) |}
           _ eq_refl eq_refl eq_refl).
Defined.

(* ================================================================== *)
(** ** The patch document as a whole *)

Section DocumentExact.

Import Spec Expect.

Variable cfg : Config.

Lemma patches_for_volume_mounts_items (base : string) (containers : json)
    (ops : list PatchOp) :
  patches_for_volume_mounts cfg base containers = Ok ops ->
  ops = expected_ops cfg base (items_of containers).
Proof.
  unfold patches_for_volume_mounts, items_of. intros H.
  destruct (Py.iter (Py.or_ containers Py.empty_list)) as [items|] eqn:E; [|discriminate].
  cbn [bind] in H. apply containers_loop_exact in H. now destruct H as [_ ->].
Qed.

Lemma two_passes_exact (base1 base2 : string) (cs ics : json) (ops : list PatchOp) :
  (p1 <- patches_for_volume_mounts cfg base1 (Py.or_ cs Py.empty_list) ;;
   p2 <- patches_for_volume_mounts cfg base2 (Py.or_ ics Py.empty_list) ;;
   Ok (([] ++ p1) ++ p2)%list) = Ok ops ->
  ops = (expected_ops cfg base1 (items_of cs) ++ expected_ops cfg base2 (items_of ics))%list.
Proof.
  rewrite !patches_for_volume_mounts_or. intros H.
  destruct (patches_for_volume_mounts cfg base1 cs) as [p1|] eqn:E1; [|discriminate].
  cbn [bind] in H.
  destruct (patches_for_volume_mounts cfg base2 ics) as [p2|] eqn:E2; [|discriminate].
  cbn [bind] in H. injection H as <-.
  apply patches_for_volume_mounts_items in E1, E2. now subst.
Qed.

Lemma build_patches_planned (kind obj : json) (ops : list PatchOp) :
  build_patches cfg kind obj = Ok ops -> ops = planned_ops cfg kind obj.
Proof.
  unfold build_patches, planned_ops. intros H.
  destruct (Py.eq_str kind "Pod").
  { destruct (Py.get obj "spec") as [spec0|] eqn:E0; [|discriminate]. cbn [bind] in H.
    apply get_ok_inv in E0. destruct E0 as (fields & -> & ->).
    set (spec0 := field (JObj fields) "spec") in *.
    destruct (Py.get (Py.or_ spec0 Py.empty_dict) "containers") as [c0|] eqn:E1;
      [|discriminate]. cbn [bind] in H.
    destruct (Py.get (Py.or_ spec0 Py.empty_dict) "initContainers") as [i0|] eqn:E2;
      [|discriminate]. cbn [bind] in H.
    apply get_or_empty_inv in E1. destruct E1 as [-> _].
    apply get_or_empty_inv in E2. destruct E2 as [-> _].
    now apply two_passes_exact. }
  destruct (Py.eq_str kind "Deployment"); [|now injection H].
  destruct (Py.get obj "spec") as [spec0|] eqn:E0; [|discriminate]. cbn [bind] in H.
  apply get_ok_inv in E0. destruct E0 as (fields & -> & ->).
  set (spec0 := field (JObj fields) "spec") in *.
  destruct (Py.get (Py.or_ spec0 Py.empty_dict) "template") as [t0|] eqn:Et;
    [|discriminate]. cbn [bind] in H.
  apply get_or_empty_inv in Et. destruct Et as [-> _].
  set (t0 := field spec0 "template") in *.
  destruct (Py.get (Py.or_ t0 Py.empty_dict) "spec") as [ts0|] eqn:Es;
    [|discriminate]. cbn [bind] in H.
  apply get_or_empty_inv in Es. destruct Es as [-> _].
  set (ts0 := field t0 "spec") in *.
  destruct (Py.get (Py.or_ ts0 Py.empty_dict) "containers") as [c0|] eqn:E1;
    [|discriminate]. cbn [bind] in H.
  destruct (Py.get (Py.or_ ts0 Py.empty_dict) "initContainers") as [i0|] eqn:E2;
    [|discriminate]. cbn [bind] in H.
  apply get_or_empty_inv in E1. destruct E1 as [-> _].
  apply get_or_empty_inv in E2. destruct E2 as [-> _].
  now apply two_passes_exact.
Qed.

(** X10: [build_patches] returns a list exactly when the object has the
    shape expected for the kind and the list is the planned document: for
    a [Pod], the operations of [spec.containers] in order followed by
    those of [spec.initContainers] in order; for a [Deployment], the same
    for the two lists under [spec.template.spec], whatever the Deployment
    has at [spec.containers]; for any other kind, empty. *)
Theorem build_patches_exact (kind obj : json) (ops : list PatchOp) :
  build_patches cfg kind obj = Ok ops
  <-> object_ok kind obj = true /\ ops = planned_ops cfg kind obj.
Proof.
  split.
  - intros H. split.
    + eapply build_patches_shape; eauto.
    + now apply build_patches_planned.
  - intros [O ->]. destruct (build_patches_total cfg _ _ O) as [ops' H].
    rewrite H. f_equal. now apply build_patches_planned.
Qed.

Lemma respond_shape (l : Locals) (x : Response * list PatchOp) :
  respond cfg l = Ok x ->
  (if kind_is_target (l_kind l) then
     labels_ok (l_obj l)
     && match has_target_label cfg (l_obj l) with
        | Ok true => object_ok (l_kind l) (l_obj l)
        | _ => true
        end
   else true) = true.
Proof.
  unfold respond. intros H.
  destruct (kind_is_target (l_kind l)); [|reflexivity].
  destruct (has_target_label cfg (l_obj l)) as [b|] eqn:L; [|discriminate].
  rewrite (has_target_label_shape _ _ _ L). cbn [andb bind] in *.
  destruct b; [|reflexivity].
  destruct (build_patches cfg (l_kind l) (l_obj l)) as [ops|] eqn:B; [|discriminate].
  eapply build_patches_shape; eauto.
Qed.

Lemma respond_returns (l : Locals) :
  (if kind_is_target (l_kind l) then
     labels_ok (l_obj l)
     && match has_target_label cfg (l_obj l) with
        | Ok true => object_ok (l_kind l) (l_obj l)
        | _ => true
        end
   else true) = true ->
  exists x, respond cfg l = Ok x.
Proof.
  intros H. destruct (kind_is_target (l_kind l)) eqn:K.
  - apply andb_prop in H. destruct H as [HL HO].
    destruct (has_target_label_total cfg _ HL) as [b Hb]. rewrite Hb in HO.
    destruct b.
    + destruct (build_patches_total cfg _ _ HO) as [ops Hops].
      destruct (respond_total cfg l ops K Hb Hops) as [r Hr]. eauto.
    + unfold respond. rewrite K, Hb. cbn [bind]. eauto.
  - unfold respond. rewrite K. eauto.
Qed.

(** X11: on a body that decodes, the [try] block completes exactly when
    the envelope is well shaped and, as far as the gate lets the handler
    look, so is the object: the labels whenever the kind is [Pod] or
    [Deployment], the container lists whenever the label matches as well.
    On every other body the handler takes its [except] branch. *)
Theorem mutate_try_returns_iff (rq : Request) (body : json) :
  payload rq = Some body ->
  ((exists x, mutate_try cfg rq = Ok x) <-> handled_ok cfg body = true).
Proof.
  intros Hp. unfold handled_ok. cbv zeta. split.
  - intros [x H]. apply mutate_try_inv in H. destruct H as (l & Hl & H).
    apply (read_request_inv _ _ _ Hp) in Hl. destruct Hl as [R ->].
    rewrite R. cbn [andb]. eapply respond_shape; eauto.
  - intros H. apply andb_prop in H. destruct H as [R H].
    unfold mutate_try. rewrite (read_request_ok _ _ Hp R). cbn [bind].
    now apply respond_returns.
Qed.

(** X12: a request whose kind is [Pod] or [Deployment], whose object
    carries the label and has the expected shape, and for which at least
    one mount is to be rewritten, is answered with the patch of exactly
    the planned operations: [patchType] is ["JSONPatch"] and [patch] is
    the base64 text of their serialisation. *)
Theorem eligible_request_is_patched (rq : Request) (l : Locals) :
  read_request rq = Ok l ->
  kind_is_target (l_kind l) = true ->
  carries_label cfg (l_obj l) ->
  object_ok (l_kind l) (l_obj l) = true ->
  planned_ops cfg (l_kind l) (l_obj l) <> [] ->
  mutate cfg rq
  = {| review := admission_review
                   {| uid := l_uid l; allowed := true;
                      patch := Some (patch_text (planned_ops cfg (l_kind l) (l_obj l)));
                      patchType := Some "JSONPatch" |};
       computed_ops := planned_ops cfg (l_kind l) (l_obj l) |}.
Proof.
  intros Hl K C O N.
  apply has_target_label_true in C.
  destruct (build_patches_total cfg _ _ O) as [ops B].
  pose proof (build_patches_planned _ _ _ B) as E. subst ops.
  destruct (respond_total cfg l _ K C B) as [r Hr].
  unfold mutate, mutate_try. rewrite Hl. cbn [bind]. rewrite Hr.
  apply respond_cases in Hr. destruct Hr as [[E _]|(_ & _ & _ & _ & ->)].
  - now elim N.
  - reflexivity.
Qed.

End DocumentExact.

Lemma build_patches_exact_witness :
  Expect.object_ok (JStr "Deployment") Sample.deployment = true
  /\ build_patches default_config (JStr "Deployment") Sample.deployment
     = Ok (Expect.planned_ops default_config (JStr "Deployment") Sample.deployment)
  /\ length (Expect.planned_ops default_config (JStr "Deployment") Sample.deployment) = 2.
Proof.
  split; [reflexivity|]. split; [|reflexivity].
  apply (proj2 (build_patches_exact default_config (JStr "Deployment") Sample.deployment _)).
  split; reflexivity.
Defined.

Lemma mutate_try_returns_iff_witness :
  let body := JObj [("request",
                     JObj [("kind", JObj [("kind", JStr "Pod")]);
                           ("object", JObj [("metadata", JStr "oops")])])] in
  payload {| payload := Some body |} = Some body
  /\ Expect.handled_ok default_config body = false
  /\ mutate_try default_config {| payload := Some body |} = Raise AttributeError
  /\ Expect.handled_ok default_config
       (JObj [("request", JObj [("kind", JObj [("kind", JStr "Pod")]);
                                ("object", Sample.pod)])]) = true
  /\ exists x,
       mutate_try default_config
         {| payload := Some (JObj [("request", JObj [("kind", JObj [("kind", JStr "Pod")]);
                                                     ("object", Sample.pod)])]) |} = Ok x.
Proof.
  cbv zeta. split; [reflexivity|]. split; [reflexivity|]. split; [reflexivity|].
  split; [reflexivity|].
  apply (mutate_try_returns_iff default_config {| payload := Some _ |} _ eq_refl).
  reflexivity.
Defined.

Lemma eligible_request_is_patched_witness :
  let rq := Sample.review_of "Pod" Sample.pod in
  let l := {| l_uid := JStr "u-1"; l_kind := JStr "Pod"; l_operation := PyStr.code_points "CREATE";
              l_obj := Sample.pod |} in
  read_request rq = Ok l
  /\ Spec.carries_label default_config (l_obj l)
  /\ Expect.object_ok (l_kind l) (l_obj l) = true
  /\ Expect.planned_ops default_config (l_kind l) (l_obj l) <> []
  /\ computed_ops (mutate default_config rq)
     = Expect.planned_ops default_config (JStr "Pod") Sample.pod.
Proof.
  cbv zeta.
  assert (C : Spec.carries_label default_config Sample.pod).
  { eexists _, _, _. repeat split. }
  assert (N : Expect.planned_ops default_config (JStr "Pod") Sample.pod <> []).
  { vm_compute. discriminate. }
  split; [reflexivity|]. split; [exact C|]. split; [reflexivity|]. split; [exact N|].
  rewrite (eligible_request_is_patched default_config
             (Sample.review_of "Pod" Sample.pod)
             {| l_uid := JStr "u-1"; l_kind := JStr "Pod"; l_operation := PyStr.code_points "CREATE";
                l_obj := Sample.pod |} eq_refl eq_refl C eq_refl N).
  reflexivity.
Defined.

(* ================================================================== *)
(** ** Which operations are emitted, and the pointers they address *)

Section Pointers.

Import Spec Expect.

Variable cfg : Config.

Lemma indexed_from_cons {A : Type} (s : nat) (x : A) (l : list A) :
  indexed_from s (x :: l) = (s, x) :: indexed_from (S s) l.
Proof. reflexivity. Qed.

Lemma nth_error_indexed {A : Type} (l : list A) :
  forall (s i : nat) (x : A),
    nth_error l i = Some x -> In (s + i, x) (indexed_from s l).
Proof.
  induction l as [|y l IH]; intros s i x H.
  - destruct i; discriminate.
  - rewrite indexed_from_cons. destruct i as [|i]; simpl in H.
    + injection H as ->. left. now rewrite Nat.add_0_r.
    + right. replace (s + S i) with (S s + i) by lia. now apply IH.
Qed.

Lemma emitted_by_mount_in (base : string) (i j : nat) (m : json) (o : PatchOp) :
  emitted_by_mount cfg base i j m o -> In o (mount_ops cfg base i j m).
Proof.
  intros (p & Hg & El & Hne & ->). unfold mount_ops.
  apply get_ok_inv in Hg. destruct Hg as (fields & -> & Hf). rewrite <- Hf.
  assert (C : String.eqb p (REWRITE_FROM cfg)
              || PyStr.startswith p (PyStr.rstrip_slash (REWRITE_FROM cfg) ++ "/") = true).
  { destruct El as [->|El]; [now rewrite String.eqb_refl | rewrite El; apply orb_true_r]. }
  rewrite C. apply String.eqb_neq in Hne. rewrite Hne. now left.
Qed.

Lemma expected_ops_complete (base : string) (items : list json) (o : PatchOp) :
  emitted_by cfg base items o -> In o (expected_ops cfg base items).
Proof.
  intros (i & c & vm & mounts & j & m & Hi & Hv & Hm & Hj & Ho).
  unfold expected_ops. apply in_flat_map. exists (i, c). split.
  - now apply (nth_error_indexed items 0 i c).
  - simpl. unfold container_ops. apply in_flat_map. exists (j, m). split.
    + apply get_ok_inv in Hv. destruct Hv as (fields & -> & ->).
      unfold mounts_of. rewrite Hm. now apply (nth_error_indexed mounts 0 j m).
    + simpl. now apply emitted_by_mount_in.
Qed.

(** X13: whenever [patches_for_volume_mounts] returns, an operation is in
    the result exactly when it is the [replace] for the mount at some
    position [j] of the container at some position [i] of the list given,
    addressed [base/i/volumeMounts/j/mountPath], whose [mountPath] is a
    string that is the source prefix or lies under it and that the
    rewriting changes.  So no such mount is skipped and no other mount is
    touched. *)
Theorem patches_for_volume_mounts_In_iff (base : string) (containers : json)
    (ops : list PatchOp) :
  patches_for_volume_mounts cfg base containers = Ok ops ->
  forall o, In o ops <-> emitted_by cfg base (items_of containers) o.
Proof.
  intros H o. split.
  - intros Hin.
    destruct (patches_for_volume_mounts_sound _ _ _ _ H) as (items & Hi & Hall).
    unfold items_of. rewrite Hi.
    rewrite Forall_forall in Hall. now apply Hall.
  - intros He. rewrite (patches_for_volume_mounts_items _ _ _ _ H).
    now apply expected_ops_complete.
Qed.

(** *** Pointers are distinct *)

Lemma no_slash_uint (d : Decimal.uint) : no_slash (NilEmpty.string_of_uint d) = true.
Proof. induction d; simpl; auto. Qed.

Lemma no_slash_of_nat (n : nat) : no_slash (PyStr.of_nat n) = true.
Proof.
  unfold PyStr.of_nat, NilZero.string_of_uint.
  destruct (Nat.to_uint n) eqn:E; try (rewrite <- E; apply no_slash_uint).
  reflexivity.
Qed.

Lemma to_uint_not_nil (n : nat) : Nat.to_uint n <> Decimal.Nil.
Proof.
  intros H. pose proof (DecimalNat.Unsigned.of_to n) as R. rewrite H in R.
  simpl in R. subst n. discriminate H.
Qed.

Lemma of_nat_inj (n n' : nat) : PyStr.of_nat n = PyStr.of_nat n' -> n = n'.
Proof.
  unfold PyStr.of_nat. intros H.
  apply (f_equal NilZero.uint_of_string) in H.
  rewrite !NilZero.usu in H by apply to_uint_not_nil.
  injection H as H. now apply DecimalNat.Unsigned.to_uint_inj.
Qed.

(** Two strings without separator that are followed by a separator in
    equal strings are equal, and so is what follows. *)
Lemma split_at_slash (a a' r r' : string) :
  no_slash a = true -> no_slash a' = true ->
  a ++ String PyStr.slash r = a' ++ String PyStr.slash r' ->
  a = a' /\ r = r'.
Proof.
  revert a'. induction a as [|c a IH]; intros a' Ha Ha' H.
  - destruct a' as [|c' a']; simpl in H.
    + injection H as ->. auto.
    + injection H as <- _. simpl in Ha'. discriminate.
  - destruct a' as [|c' a']; simpl in H.
    + injection H as -> _. simpl in Ha. discriminate.
    + injection H as -> H. simpl in Ha, Ha'.
      apply andb_prop in Ha. apply andb_prop in Ha'.
      destruct (IH a' (proj2 Ha) (proj2 Ha') H) as [-> ->]. auto.
Qed.

Lemma mount_pointer_inj (base : string) (i j i' j' : nat) :
  mount_pointer base i j = mount_pointer base i' j' -> i = i' /\ j = j'.
Proof.
  unfold mount_pointer. intros H.
  apply str_app_inv_head in H. simpl in H. injection H as H.
  apply split_at_slash in H; try apply no_slash_of_nat.
  destruct H as [Hi H]. apply of_nat_inj in Hi.
  simpl in H. injection H as H.
  apply split_at_slash in H; try apply no_slash_of_nat.
  destruct H as [Hj _]. apply of_nat_inj in Hj. auto.
Qed.

Lemma mount_ops_cases (base : string) (i j : nat) (m : json) :
  mount_ops cfg base i j m = []
  \/ exists v, mount_ops cfg base i j m
               = [ {| op := "replace"; path := mount_pointer base i j; value := v |} ].
Proof.
  unfold mount_ops. destruct (field m "mountPath"); auto.
  destruct (_ && _); eauto.
Qed.

Lemma mounts_paths (base : string) (i : nat) (ms : list json) :
  forall j0,
    let L := flat_map (fun jm => mount_ops cfg base i (fst jm) (snd jm))
                      (indexed_from j0 ms) in
    NoDup (map path L)
    /\ forall o, In o L -> exists j, j0 <= j /\ path o = mount_pointer base i j.
Proof.
  induction ms as [|m ms IH]; intros j0; cbv zeta.
  - split; [constructor | intros o []].
  - rewrite indexed_from_cons. simpl flat_map.
    destruct (IH (S j0)) as [ND Hafter]. cbv zeta in ND, Hafter.
    destruct (mount_ops_cases base i j0 m) as [->|[v ->]]; simpl.
    + split; [exact ND|]. intros o Ho.
      destruct (Hafter o Ho) as (j & Hj & Hp). exists j. split; [lia | exact Hp].
    + split.
      * constructor; [|exact ND]. intros Hin.
        apply in_map_iff in Hin. destruct Hin as (o & Hp & Ho).
        destruct (Hafter o Ho) as (j & Hj & Hp'). rewrite Hp' in Hp.
        apply mount_pointer_inj in Hp. lia.
      * intros o [<-|Ho]; [exists j0; split; [lia | reflexivity]|].
        destruct (Hafter o Ho) as (j & Hj & Hp). exists j. split; [lia | exact Hp].
Qed.

Lemma containers_paths (base : string) (items : list json) :
  forall i0,
    let L := flat_map (fun ic => container_ops cfg base (fst ic) (snd ic))
                      (indexed_from i0 items) in
    NoDup (map path L)
    /\ forall o, In o L -> exists i j, i0 <= i /\ path o = mount_pointer base i j.
Proof.
  induction items as [|c cs IH]; intros i0; cbv zeta.
  - split; [constructor | intros o []].
  - rewrite indexed_from_cons. simpl flat_map.
    destruct (IH (S i0)) as [ND Hafter]. cbv zeta in ND, Hafter.
    destruct (mounts_paths base i0 (mounts_of c) 0) as [NDc Hc]. cbv zeta in NDc, Hc.
    fold (container_ops cfg base i0 c) in NDc, Hc.
    split.
    + rewrite map_app. apply NoDup_app; [exact NDc | exact ND |].
      intros a Ha Hb.
      apply in_map_iff in Ha. destruct Ha as (o1 & <- & Ho1).
      apply in_map_iff in Hb. destruct Hb as (o2 & Hp & Ho2).
      destruct (Hc o1 Ho1) as (j1 & _ & P1).
      destruct (Hafter o2 Ho2) as (i2 & j2 & Hi2 & P2).
      rewrite P1, P2 in Hp. apply mount_pointer_inj in Hp. lia.
    + intros o Ho. apply in_app_or in Ho. destruct Ho as [Ho|Ho].
      * destruct (Hc o Ho) as (j & _ & P). exists i0, j. split; [lia | exact P].
      * destruct (Hafter o Ho) as (i & j & Hi & P). exists i, j. split; [lia | exact P].
Qed.

Lemma two_lists_distinct (base1 base2 : string) (items1 items2 : list json) :
  (forall i j i' j', mount_pointer base1 i j <> mount_pointer base2 i' j') ->
  NoDup (map path (expected_ops cfg base1 items1 ++ expected_ops cfg base2 items2)).
Proof.
  intros Hb. rewrite map_app.
  destruct (containers_paths base1 items1 0) as [ND1 H1].
  destruct (containers_paths base2 items2 0) as [ND2 H2].
  cbv zeta in *. apply NoDup_app; [exact ND1 | exact ND2 |].
  intros a Ha Hb'.
  apply in_map_iff in Ha. destruct Ha as (o1 & <- & Ho1).
  apply in_map_iff in Hb'. destruct Hb' as (o2 & Hp & Ho2).
  destruct (H1 o1 Ho1) as (i & j & _ & P1).
  destruct (H2 o2 Ho2) as (i' & j' & _ & P2).
  rewrite P1, P2 in Hp. symmetry in Hp. now apply Hb in Hp.
Qed.

(** X14: no two operations of a patch document [build_patches] returns
    address the same JSON pointer: each mount of each container of the two
    lists is replaced at most once. *)
Theorem build_patches_paths_distinct (kind obj : json) (ops : list PatchOp) :
  build_patches cfg kind obj = Ok ops -> NoDup (map path ops).
Proof.
  intros H. rewrite (build_patches_planned _ _ _ _ H). unfold planned_ops.
  destruct (Py.eq_str kind "Pod").
  { apply two_lists_distinct. intros i j i' j'. unfold mount_pointer. discriminate. }
  destruct (Py.eq_str kind "Deployment"); [|constructor].
  apply two_lists_distinct. intros i j i' j'. unfold mount_pointer. discriminate.
Qed.

End Pointers.

Lemma patches_for_volume_mounts_In_iff_witness :
  let containers := JArr [Sample.container "c" ["/data"; "/home"]] in
  let o := {| op := "replace"; path := "/spec/containers/0/volumeMounts/1/mountPath";
              value := "/blah/home/" |} in
  patches_for_volume_mounts default_config "/spec/containers" containers = Ok [o]
  /\ Spec.emitted_by default_config "/spec/containers" (Expect.items_of containers) o.
Proof.
  cbv zeta. split; [reflexivity|].
  apply (patches_for_volume_mounts_In_iff default_config "/spec/containers"
           (JArr [Sample.container "c" ["/data"; "/home"]]) _ eq_refl).
  now left.
Defined.

Lemma build_patches_paths_distinct_witness :
  exists ops,
    build_patches default_config (JStr "Pod") Sample.pod = Ok ops
    /\ length ops = 2
    /\ NoDup (map path ops).
Proof.
  eexists. split; [reflexivity|]. split; [reflexivity|].
  apply (build_patches_paths_distinct default_config (JStr "Pod") Sample.pod).
  reflexivity.
Defined.

(* ================================================================== *)
(** ** The remaining properties at sample inputs *)

Lemma replace_home_path_descendant_correct_iff_witness :
  let root := {| LABEL_KEY := "nfs-home"; LABEL_VALUE := "true";
                 REWRITE_FROM := "/"; REWRITE_TO := "/mnt/" |} in
  PyStr.rstrip_slash (REWRITE_FROM root) = EmptyString
  /\ replace_home_path root "//x" = "/mnt/x"
  /\ PyStr.rstrip_slash (REWRITE_FROM default_config) <> EmptyString
  /\ replace_home_path default_config "/home/x" <> "/blah/home/x".
Proof.
  cbv zeta. split; [reflexivity|]. split.
  - apply (proj2 (replace_home_path_descendant_correct_iff
                    {| LABEL_KEY := "nfs-home"; LABEL_VALUE := "true";
                       REWRITE_FROM := "/"; REWRITE_TO := "/mnt/" |} "x")).
    reflexivity.
  - split; [discriminate|]. intros H.
    apply (proj1 (replace_home_path_descendant_correct_iff default_config "x")) in H.
    discriminate H.
Defined.

Lemma patches_for_volume_mounts_exact_witness :
  let containers := JArr [Sample.container "a" ["/home/u"; "/tmp"];
                          Sample.container "b" ["/home"]] in
  exists ops,
    patches_for_volume_mounts default_config "/spec/containers" containers = Ok ops
    /\ length ops = 2
    /\ exists items,
         Py.iter (Py.or_ containers Py.empty_list) = Ok items
         /\ ops = Expect.expected_ops default_config "/spec/containers" items.
Proof.
  cbv zeta. eexists. split; [reflexivity|]. split; [reflexivity|].
  apply (patches_for_volume_mounts_exact default_config "/spec/containers"
           (JArr [Sample.container "a" ["/home/u"; "/tmp"]; Sample.container "b" ["/home"]])).
  reflexivity.
Defined.

Lemma patches_for_volume_mounts_returns_iff_witness :
  let good := JArr [JObj [("volumeMounts", JNull)]; JObj []] in
  let bad := JArr [JObj [("volumeMounts", JArr [JNull])]] in
  Spec.containers_ok good = true
  /\ (exists ops, patches_for_volume_mounts default_config "/spec/containers" good = Ok ops)
  /\ patches_for_volume_mounts default_config "/spec/containers" bad = Raise AttributeError
  /\ Spec.containers_ok bad = false.
Proof.
  cbv zeta. split; [reflexivity|]. split.
  - apply (proj2 (patches_for_volume_mounts_returns_iff default_config "/spec/containers"
                    (JArr [JObj [("volumeMounts", JNull)]; JObj []]))).
    reflexivity.
  - split; reflexivity.
Defined.

Lemma has_target_label_returns_iff_witness :
  let obj := JObj [("metadata", JObj [("labels", JArr [])])] in
  Spec.labels_ok obj = true
  /\ (exists b, has_target_label default_config obj = Ok b)
  /\ has_target_label default_config (JObj [("metadata", JObj [("labels", JArr [JNull])])])
     = Raise AttributeError.
Proof.
  cbv zeta. split; [reflexivity|]. split; [|reflexivity].
  apply (proj2 (has_target_label_returns_iff default_config
                  (JObj [("metadata", JObj [("labels", JArr [])])]))).
  reflexivity.
Defined.

Lemma build_patches_returns_iff_witness :
  Expect.object_ok (JStr "Deployment") Sample.deployment = true
  /\ (exists ops, build_patches default_config (JStr "Deployment") Sample.deployment = Ok ops)
  /\ Expect.object_ok (JStr "Deployment") (JObj [("spec", JObj [("template", JStr "t")])])
     = false
  /\ build_patches default_config (JStr "Deployment")
       (JObj [("spec", JObj [("template", JStr "t")])]) = Raise AttributeError.
Proof.
  split; [reflexivity|]. split.
  - apply (proj2 (build_patches_returns_iff default_config (JStr "Deployment")
                    Sample.deployment)).
    reflexivity.
  - split; reflexivity.
Defined.

(* ================================================================== *)
(** ** Shape errors: where the accessors return, and what they skip *)

Section ShapeTotality.

Import Spec Expect.

Variable cfg : Config.

Lemma field_of_falsy (v : json) (k : string) :
  falsy v = true -> field v k = JNull.
Proof.
  unfold falsy. destruct v; try reflexivity.
  destruct fields; [reflexivity | discriminate].
Qed.

Lemma items_of_falsy (v : json) : falsy v = true -> items_of v = [].
Proof.
  unfold falsy, items_of, Py.or_. intros H.
  apply negb_true_iff in H. now rewrite H.
Qed.

Lemma planned_ops_pod_no_spec (obj : json) :
  falsy (field obj "spec") = true -> planned_ops cfg (JStr "Pod") obj = [].
Proof.
  intros H. unfold planned_ops. simpl Py.eq_str. cbv iota zeta.
  now rewrite !(field_of_falsy _ _ H).
Qed.

Lemma planned_ops_deployment_no_template (obj : json) :
  falsy (field obj "spec") = true
  \/ falsy (field (field obj "spec") "template") = true
  \/ falsy (field (field (field obj "spec") "template") "spec") = true ->
  planned_ops cfg (JStr "Deployment") obj = [].
Proof.
  intros H. unfold planned_ops. simpl Py.eq_str. cbv iota zeta.
  assert (E : forall k, field (field (field (field obj "spec") "template") "spec") k = JNull).
  { intros k. destruct H as [H|[H|H]].
    - now rewrite (field_of_falsy _ "template" H).
    - now rewrite (field_of_falsy _ "spec" H).
    - now apply field_of_falsy. }
  now rewrite !E.
Qed.

Lemma has_target_label_no_labels (obj : json) :
  labels_ok obj = true ->
  falsy (field obj "metadata") = true
  \/ falsy (field (field obj "metadata") "labels") = true ->
  has_target_label cfg obj = Ok false.
Proof.
  unfold labels_ok. intros H F.
  apply andb_prop in H. destruct H as [H H3].
  apply andb_prop in H. destruct H as [H1 H2].
  unfold has_target_label.
  rewrite (get_of_dict _ _ H1). cbn [bind].
  rewrite (get_or_empty _ _ H2). cbn [bind].
  assert (L : falsy (field (field obj "metadata") "labels") = true).
  { destruct F as [F|F]; [|exact F]. now rewrite (field_of_falsy _ _ F). }
  unfold falsy in L. apply negb_true_iff in L.
  unfold Py.or_ at 1. rewrite L. reflexivity.
Qed.

(** C9 (amended): each accessor returns exactly on the expected shapes
    and raises on every other input; and where it returns, what is absent
    or falsy counts as empty.

    - [has_target_label] returns when the object is a mapping and
      [metadata] and [metadata.labels] are each absent, falsy or a mapping,
      and raises otherwise; absent or falsy [metadata] or [labels] give
      [False].
    - [patches_for_volume_mounts] returns when the container list is
      absent, falsy or a list of mappings whose [volumeMounts] are each
      absent, falsy or a list of mappings, and raises otherwise; an absent
      or falsy list gives no operation; a container whose [volumeMounts] is
      absent or falsy is passed over; a mount whose [mountPath] is absent
      or not a string is skipped; and the operations returned are exactly
      those of the mounts whose [mountPath] is a string that is the source
      prefix or under it and that the rewriting changes.
    - [build_patches] returns the planned document when the object has the
      shape expected for the kind, and raises otherwise; an absent or falsy
      [spec] (for a Deployment also [template] or [template.spec]) gives
      no operation. *)
Theorem accessors_total_on_expected_shapes :
  (forall obj,
      (labels_ok obj = true -> exists b, has_target_label cfg obj = Ok b)
      /\ (labels_ok obj = false -> exists e, has_target_label cfg obj = Raise e))
  /\ (forall obj,
        labels_ok obj = true ->
        falsy (field obj "metadata") = true
        \/ falsy (field (field obj "metadata") "labels") = true ->
        has_target_label cfg obj = Ok false)
  /\ (forall base cs,
        (containers_ok cs = true ->
         exists ops, patches_for_volume_mounts cfg base cs = Ok ops)
        /\ (containers_ok cs = false ->
            exists e, patches_for_volume_mounts cfg base cs = Raise e))
  /\ (forall base cs,
        falsy cs = true -> patches_for_volume_mounts cfg base cs = Ok [])
  /\ (forall base i c rest acc,
        Py.isinstance_dict c = true ->
        falsy (field c "volumeMounts") = true ->
        containers_loop cfg base i (c :: rest) acc
        = containers_loop cfg base (S i) rest acc)
  /\ (forall base i j mount acc,
        Py.isinstance_dict mount = true ->
        (forall p, field mount "mountPath" <> JStr p) ->
        visit_mount cfg base i j mount acc = Ok acc)
  /\ (forall base cs ops,
        patches_for_volume_mounts cfg base cs = Ok ops ->
        forall o, In o ops <-> emitted_by cfg base (items_of cs) o)
  /\ (forall kind obj,
        (object_ok kind obj = true ->
         build_patches cfg kind obj = Ok (planned_ops cfg kind obj))
        /\ (object_ok kind obj = false ->
            exists e, build_patches cfg kind obj = Raise e))
  /\ (forall obj,
        object_ok (JStr "Pod") obj = true ->
        falsy (field obj "spec") = true ->
        build_patches cfg (JStr "Pod") obj = Ok [])
  /\ (forall obj,
        object_ok (JStr "Deployment") obj = true ->
        falsy (field obj "spec") = true
        \/ falsy (field (field obj "spec") "template") = true
        \/ falsy (field (field (field obj "spec") "template") "spec") = true ->
        build_patches cfg (JStr "Deployment") obj = Ok []).
Proof.
  assert (BP : forall kind obj,
             object_ok kind obj = true ->
             build_patches cfg kind obj = Ok (planned_ops cfg kind obj)).
  { intros kind obj O. destruct (build_patches_total cfg _ _ O) as [ops H].
    rewrite H. f_equal. now apply build_patches_planned. }
  split; [|split; [|split; [|split; [|split; [|split; [|split; [|split; [|split]]]]]]]].
  - intros obj. split; [apply has_target_label_total|].
    intros N. destruct (has_target_label cfg obj) as [b|e] eqn:H; [|eauto].
    apply has_target_label_shape in H. congruence.
  - apply has_target_label_no_labels.
  - intros base cs. split; [apply patches_for_volume_mounts_total|].
    intros N. destruct (patches_for_volume_mounts cfg base cs) as [ops|e] eqn:H; [|eauto].
    apply patches_for_volume_mounts_shape in H. congruence.
  - intros base cs. apply patches_for_volume_mounts_falsy.
  - intros base i c rest acc Hd Hf. simpl.
    rewrite (get_of_dict _ _ Hd). cbn [bind].
    unfold falsy in Hf. apply negb_true_iff in Hf.
    unfold Py.or_. rewrite Hf. reflexivity.
  - intros base i j mount acc Hd Hn. unfold visit_mount.
    rewrite (get_of_dict _ _ Hd). cbn [bind].
    destruct (field mount "mountPath") eqn:E; try reflexivity.
    now elim (Hn s).
  - intros base cs ops H o. split.
    + intros Hin.
      destruct (patches_for_volume_mounts_sound _ _ _ _ H) as (items & Hi & Hall).
      unfold items_of. rewrite Hi.
      rewrite Forall_forall in Hall. now apply Hall.
    + intros He. rewrite (patches_for_volume_mounts_items _ _ _ _ H).
      now apply expected_ops_complete.
  - intros kind obj. split; [apply BP|].
    intros N. destruct (build_patches cfg kind obj) as [ops|e] eqn:H; [|eauto].
    apply build_patches_shape in H. congruence.
  - intros obj O F. rewrite (BP _ _ O). f_equal. now apply planned_ops_pod_no_spec.
  - intros obj O F. rewrite (BP _ _ O). f_equal.
    now apply planned_ops_deployment_no_template.
Qed.

End ShapeTotality.

Lemma accessors_total_on_expected_shapes_witness :
  let odd_pod :=
    JObj [("spec", JObj [("containers",
                          JArr [JObj [("volumeMounts", JNull)];
                                JObj [("volumeMounts",
                                       JArr [JObj [("mountPath", JInt 7)]])]])])] in
  (Spec.labels_ok (JObj [("metadata", JNull)]) = true
   /\ has_target_label default_config (JObj [("metadata", JNull)]) = Ok false)
  /\ (Spec.labels_ok (JObj [("metadata", JStr "x")]) = false
      /\ exists e, has_target_label default_config (JObj [("metadata", JStr "x")]) = Raise e)
  /\ (Expect.object_ok (JStr "Pod") odd_pod = true
      /\ build_patches default_config (JStr "Pod") odd_pod = Ok [])
  /\ visit_mount default_config "/spec/containers" 1 0 (JObj [("mountPath", JInt 7)]) []
     = Ok []
  /\ (Spec.containers_ok (JArr [JNull]) = false
      /\ exists e,
           patches_for_volume_mounts default_config "/spec/containers" (JArr [JNull])
           = Raise e).
Proof.
  cbv zeta.
  destruct (accessors_total_on_expected_shapes default_config)
    as (HL & HF & HB & _ & _ & HV & _ & HP & _ & _).
  split; [|split; [|split; [|split]]].
  - split; [reflexivity|]. apply HF; [reflexivity | now left].
  - split; [reflexivity|]. apply (proj2 (HL _)). reflexivity.
  - split; [reflexivity|].
    exact (proj1 (HP (JStr "Pod")
                     (JObj [("spec", JObj [("containers",
                                            JArr [JObj [("volumeMounts", JNull)];
                                                  JObj [("volumeMounts",
                                                         JArr [JObj [("mountPath",
                                                                      JInt 7)]])]])])]))
                 eq_refl).
  - apply HV; [reflexivity | discriminate].
  - split; [reflexivity|]. apply (proj2 (HB _ _)). reflexivity.
Defined.

(* ================================================================== *)
(** ** Upper-casing at sample characters *)

Example upper_ascii : PyStr.upper "create" = PyStr.code_points "CREATE".
Proof. reflexivity. Qed.

(** U+00E9, U+00DF, U+00B5, U+00FF, U+00F7 and [a] become U+00C9, [SS],
    U+039C, U+0178, U+00F7 and [A]. *)
Example upper_latin1 :
  PyStr.upper (String (ascii_of_nat 233) (String (ascii_of_nat 223)
              (String (ascii_of_nat 181) (String (ascii_of_nat 255)
              (String (ascii_of_nat 247) "a")))))
  = [201; 83; 83; 924; 376; 247; 65]%N.
Proof. reflexivity. Qed.
